(** * Pending-transaction monitor: ingestion, scoring, bounded caches, query

    A shallow embedding of the two program versions of the repository,

    - [Web+Redis+render.py]   (module [Render]),  the first version, and
    - [web+Redis+render1.py]  (module [Render1]), the version with the activity
      log and the query-time threshold,

    followed by the properties proved about them.

    Python values are modelled as the interpreter has them: a number is an [int]
    or a binary64 [float] (Rocq's primitive floats, which compute with the same
    IEEE 754 rounding as CPython), a [str] is a [string], a [list] is a [list]
    with index 0 at its head.  Everything the programs obtain from outside the
    repository (the chain node, the clock, the [json] module, [repr] of a
    float) is a [Variable] of the section that uses it. *)

From Stdlib Require Import List String Ascii ZArith Bool Arith Lia.
From Stdlib Require Import DecimalString.
From Stdlib Require Import PrimFloat SpecFloat FloatOps FloatAxioms.
Import ListNotations.

Set Warnings "-inexact-float".

Local Open Scope string_scope.
Local Open Scope list_scope.

(* ------------------------------------------------------------------------- *)
(** ** Python numbers, strings and lists *)

Module Py.

(** A Python number: an arbitrary-precision [int] or a binary64 [float]. *)
Inductive num : Type :=
| Int (z : Z)
| Float (x : float).

(** [float(z)]: the integer rounded to the nearest binary64, ties to even. *)
Definition float_of_int (z : Z) : float :=
  SF2Prim (binary_normalize prec emax z 0 false).

Definition as_float (n : num) : float :=
  match n with
  | Int z => float_of_int z
  | Float x => x
  end.

(** [a + b]: exact on two ints, otherwise the float sum.  *)
Definition add (a b : num) : num :=
  match a, b with
  | Int x, Int y => Int (x + y)
  | _, _ => Float (as_float a + as_float b)
  end.

(** [a < b].  CPython compares an int with a float exactly; the conversion
    used here agrees with that for every int below 2^53 in magnitude, which
    covers the literals [0], [50] and [100] of the programs. *)
Definition ltb (a b : num) : bool :=
  match a, b with
  | Int x, Int y => (x <? y)%Z
  | _, _ => (as_float a <? as_float b)%float
  end.

Definition leb (a b : num) : bool :=
  match a, b with
  | Int x, Int y => (x <=? y)%Z
  | _, _ => (as_float a <=? as_float b)%float
  end.

Definition gtb (a b : num) : bool := ltb b a.
Definition geb (a b : num) : bool := leb b a.

(** [a == b]. *)
Definition eqb (a b : num) : bool :=
  match a, b with
  | Int x, Int y => (x =? y)%Z
  | _, _ => (as_float a =? as_float b)%float
  end.

(** [min(a, b)]: the first argument unless the second is strictly smaller. *)
Definition min (a b : num) : num := if ltb b a then b else a.

(** [c.lower()] on one character of the ASCII range. *)
Definition lower_ascii (c : ascii) : ascii :=
  let n := nat_of_ascii c in
  if (65 <=? n)%nat && (n <=? 90)%nat then ascii_of_nat (n + 32) else c.

(** [s.lower()].  A [str] is held as its UTF-8 bytes; bytes outside the ASCII
    range are left alone, which is what [str.lower] does to every character
    that matters for an ASCII prefix test. *)
Fixpoint lower (s : string) : string :=
  match s with
  | EmptyString => EmptyString
  | String c s' => String (lower_ascii c) (lower s')
  end.

(** [s.startswith(p)]. *)
Definition startswith (s p : string) : bool := String.prefix p s.

(** [l.insert(0, x)]. *)
Definition insert0 {A} (x : A) (l : list A) : list A := x :: l.

(** [l.pop()] on a non-empty list: the list without its last element. *)
Definition pop {A} (l : list A) : list A := removelast l.

(** [l[:n]]. *)
Definition slice_to {A} (n : nat) (l : list A) : list A := firstn n l.

(** [str(z)] for an int. *)
Definition str_int (z : Z) : string := NilZero.string_of_int (Z.to_int z).

(** Truth value of a [str]: only the empty string is false. *)
Definition truthy (s : string) : bool := negb (s =? "")%string.

(** [z / d] for an int [z] and a float [d]: the int is converted first, which
    raises [OverflowError] when it is too large for a float, and a zero
    divisor raises [ZeroDivisionError].  [None] stands for the exception. *)
Definition int_truediv_float (z : Z) (d : float) : option float :=
  let x := float_of_int z in
  if is_infinity x then None
  else if (d =? 0)%float then None
  else Some (x / d)%float.

End Py.

(* ------------------------------------------------------------------------- *)
(** ** Records exchanged by the two versions *)

(** The dict [tx_data] built by [listen_pending_tx] and read back by
    [consume_tx]: keys ["hash"], ["from"], ["to"], ["value"], ["gas"],
    ["timestamp"].  ["to"] is [None] for a contract creation. *)
Record tx_data : Type := mk_tx {
  t_hash : string;
  t_from : string;
  t_to : option string;
  t_value : float;
  t_gas : float;
  t_timestamp : string
}.

(** The dict [alert] built by [consume_tx]: keys ["tx_hash"], ["risk_score"],
    ["from"], ["to"], ["timestamp"]. *)
Record alert : Type := mk_alert {
  a_tx_hash : string;
  a_risk_score : Py.num;
  a_from : string;
  a_to : option string;
  a_timestamp : string
}.

(** [w3.eth.get_transaction(tx_hash)] returns a mapping of which the programs
    read ["hash"] (a [HexBytes]), ["from"], ["to"], ["value"] (wei, an int)
    and ["gasPrice"] (wei, an int). *)
Definition HexBytes : Type := string.

Record chain_tx : Type := mk_chain_tx {
  c_hash : HexBytes;
  c_from : string;
  c_to : option string;
  c_value : Z;
  c_gasPrice : Z
}.

(* ------------------------------------------------------------------------- *)
(** ** The Redis list [tx_queue] *)

Module Redis.

(** The list under one key, head (left end) first; [decode_responses=True]
    makes every element a [str]. *)
Definition rlist : Type := list string.

(** [LPUSH key x]. *)
Definition lpush (x : string) (q : rlist) : rlist := x :: q.

(** [RPOP key]: the tail element and the remaining list, [None] on an empty
    (absent) key. *)
Definition rpop (q : rlist) : option string * rlist :=
  match q with
  | [] => (None, [])
  | _ :: _ => (Some (last q ""), removelast q)
  end.

End Redis.

(* ------------------------------------------------------------------------- *)
(** ** The query boundary *)

Module FastAPI.

(** [Query(default, ge=lo, le=hi)] on a [float] parameter. *)
Record query : Type := Query {
  q_default : float;
  q_ge : float;
  q_le : float
}.

(** What a handler's caller receives: the JSON content of a 200 response, or
    the 422 validation error raised before the handler runs. *)
Inductive response (B : Type) : Type :=
| JSONResponse (content : B)
| RequestValidationError.

Arguments JSONResponse {B} content.
Arguments RequestValidationError {B}.

(** The value bound to the handler's parameter: the default when the caller
    sent none, the caller's value when it is within the bounds, and [None]
    when validation fails. *)
Definition validate (q : query) (sent : option float) : option float :=
  match sent with
  | None => Some (q_default q)
  | Some x =>
      if ((q_ge q <=? x) && (x <=? q_le q))%float then Some x else None
  end.

End FastAPI.

(* ------------------------------------------------------------------------- *)
(** ** [web+Redis+render1.py] *)

Module Render1.

(** The module-level state: the Redis list behind [redis_conn] and the two
    global lists [latest_alerts] and [transaction_logs]. *)
Record state : Type := mk_state {
  tx_queue : Redis.rlist;
  latest_alerts : list alert;
  transaction_logs : list string
}.

Definition set_tx_queue (q : Redis.rlist) (st : state) : state :=
  mk_state q (latest_alerts st) (transaction_logs st).

Definition set_latest_alerts (l : list alert) (st : state) : state :=
  mk_state (tx_queue st) l (transaction_logs st).

Definition set_transaction_logs (l : list string) (st : state) : state :=
  mk_state (tx_queue st) (latest_alerts st) l.

(** Both caches empty at start-up; the Redis list is whatever the store holds. *)
Definition init (q : Redis.rlist) : state := mk_state q [] [].

(** How one iteration of [consume_tx] ends: normally, or with an exception
    that leaves the loop. *)
Inductive outcome : Type :=
| Done (st : state)
| Raised (st : state).

(** The body of a 200 response of [/alerts] and of [/logs]. *)
Record alerts_content : Type := mk_alerts_content {
  threshold : float;
  alerts : list alert
}.

Record logs_content : Type := mk_logs_content {
  logs : list string
}.

(** [log_message(msg)], lines 31-35 ([print] writes to the console only). *)
Definition log_message (msg : string) (st : state) : state :=
  let l := Py.insert0 msg (transaction_logs st) in
  let l := if (20 <? List.length l)%nat then Py.pop l else l in
  set_transaction_logs l st.

(** [simple_risk_score(tx)], lines 38-46. *)
Definition simple_risk_score (tx : tx_data) : Py.num :=
  let score := Py.Int 0 in
  let score :=
    if Py.gtb (Py.Float (t_value tx)) (Py.Int 100)
    then Py.add score (Py.Float 0.5) else score in
  let score :=
    if Py.gtb (Py.Float (t_gas tx)) (Py.Int 50)
    then Py.add score (Py.Float 0.3) else score in
  let score :=
    if Py.startswith (Py.lower (t_from tx)) "0xabc"
    then Py.add score (Py.Float 0.3) else score in
  Py.min score (Py.Float 1.0).

(** Lines 89-90: insert the alert at index 0, then keep [[:10]]. *)
Definition cache_alert (a : alert) (st : state) : state :=
  let l := Py.insert0 a (latest_alerts st) in
  set_latest_alerts (Py.slice_to 10 l) st.

(** The declaration of the [threshold] parameter, line 96. *)
Definition threshold_query : FastAPI.query := FastAPI.Query 0.8 0.0 1.0.

(** [get_alerts(threshold)], lines 95-98.  [sent] is the value of the query
    parameter in the request, if any. *)
Definition get_alerts (sent : option float) (st : state)
  : FastAPI.response alerts_content * state :=
  match FastAPI.validate threshold_query sent with
  | None => (FastAPI.RequestValidationError, st)
  | Some threshold =>
      let filtered_alerts :=
        filter (fun a => Py.geb (a_risk_score a) (Py.Float threshold))
               (latest_alerts st) in
      (FastAPI.JSONResponse (mk_alerts_content threshold filtered_alerts), st)
  end.

(** [get_logs()], lines 101-103. *)
Definition get_logs (st : state) : FastAPI.response logs_content * state :=
  (FastAPI.JSONResponse (mk_logs_content (transaction_logs st)), st).

Section Program.

(** [HexBytes.hex], the node's answer to [get_transaction] ([None] when the
    call raises), [json.dumps] and [json.loads] on a [tx_data] dict ([None]
    when the payload does not decode to one), and [repr] of a float. *)
Variable hex : HexBytes -> string.
Variable get_transaction : HexBytes -> option chain_tx.
Variable json_dumps : tx_data -> string.
Variable json_loads : string -> option tx_data.
Variable repr_float : float -> string.

(** [str(score)] inside the f-string of line 80. *)
Definition str_score (score : Py.num) : string :=
  match score with
  | Py.Int z => Py.str_int z
  | Py.Float x => repr_float x
  end.

(** Lines 56-64: resolve the identifier and normalise the record; [now] is
    what [datetime.utcnow().isoformat()] returns in this iteration.  [None]
    when an exception is raised. *)
Definition build_tx_data (now : string) (tx_hash : HexBytes) : option tx_data :=
  match get_transaction tx_hash with
  | None => None
  | Some tx =>
      match Py.int_truediv_float (c_value tx) 1e18,
            Py.int_truediv_float (c_gasPrice tx) 1e9 with
      | Some value, Some gas =>
          Some (mk_tx (hex (c_hash tx)) (c_from tx) (c_to tx) value gas now)
      | _, _ => None
      end
  end.

(** Lines 65-66: push the payload, then log the hash. *)
Definition enqueue (tx_data : tx_data) (st : state) : state :=
  let st := set_tx_queue (Redis.lpush (json_dumps tx_data) (tx_queue st)) st in
  log_message ("📥 入队交易：" ++ t_hash tx_data) st.

(** The [try] block of lines 55-66; [None] when it raises. *)
Definition listen_try (now : string) (tx_hash : HexBytes) (st : state)
  : option state :=
  match build_tx_data now tx_hash with
  | Some tx_data => Some (enqueue tx_data st)
  | None => None
  end.

(** One iteration of [for tx_hash in tx_hashes], with its
    [except Exception: continue]. *)
Definition listen_entry (st : state) (e : HexBytes * string) : state :=
  match listen_try (snd e) (fst e) st with
  | Some st' => st'
  | None => st
  end.

(** One iteration of the [while True] of [listen_pending_tx]: the identifiers
    returned by [get_new_entries()], each with the clock reading of its
    iteration, then [asyncio.sleep(1)]. *)
Definition listen_poll (st : state) (tx_hashes : list (HexBytes * string))
  : state :=
  fold_left listen_entry tx_hashes st.

(** [listen_pending_tx()] over the polls of a finite prefix of its run. *)
Definition listen_pending_tx (polls : list (list (HexBytes * string)))
  (st : state) : state :=
  fold_left listen_poll polls (log_message "✅ 启动监听中..." st).

(** Lines 79-90: score the record, log it, cache it when it qualifies. *)
Definition score_and_cache (tx : tx_data) (st : state) : state :=
  let score := simple_risk_score tx in
  let st :=
    log_message ("📤 消费交易：" ++ t_hash tx ++ " | 风险分：" ++ str_score score)
                st in
  if Py.geb score (Py.Float 0.3) then
    let alert :=
      mk_alert (t_hash tx) score (t_from tx) (t_to tx) (t_timestamp tx) in
    cache_alert alert st
  else st.

(** One iteration of the [while True] of [consume_tx], lines 76-92. *)
Definition consume_iter (st : state) : outcome :=
  let (tx_json, q) := Redis.rpop (tx_queue st) in
  let st := set_tx_queue q st in
  match tx_json with
  | Some s =>
      if Py.truthy s then
        match json_loads s with
        | Some tx => Done (score_and_cache tx st)
        | None => Raised st
        end
      else Done st
  | None => Done st
  end.

(** [n] iterations of the loop, stopping at the first exception. *)
Fixpoint consume_loop (n : nat) (st : state) : outcome :=
  match n with
  | O => Done st
  | S n' =>
      match consume_iter st with
      | Done st' => consume_loop n' st'
      | Raised st' => Raised st'
      end
  end.

(** [consume_tx()] over the first [n] iterations of its loop. *)
Definition consume_tx (n : nat) (st : state) : outcome :=
  consume_loop n (log_message "✅ 启动消费模块..." st).

(** The states the running program passes through: the two loops and the
    request handlers interleave at the granularity of one iteration or one
    request, and any other client of the store may push to the list. *)
Inductive reachable : state -> Prop :=
| reach_init : forall q, reachable (init q)
| reach_log : forall st msg, reachable st -> reachable (log_message msg st)
| reach_listen : forall st e, reachable st -> reachable (listen_entry st e)
| reach_consume_done : forall st st',
    reachable st -> consume_iter st = Done st' -> reachable st'
| reach_consume_raised : forall st st',
    reachable st -> consume_iter st = Raised st' -> reachable st'
| reach_get_alerts : forall st sent,
    reachable st -> reachable (snd (get_alerts sent st))
| reach_get_logs : forall st, reachable st -> reachable (snd (get_logs st))
| reach_push : forall st s,
    reachable st -> reachable (set_tx_queue (Redis.lpush s (tx_queue st)) st).

End Program.

End Render1.

(* ------------------------------------------------------------------------- *)
(** ** [Web+Redis+render.py] *)

Module Render.

(** The module-level state: the Redis list and the global [latest_alerts];
    this version keeps no log ([print] writes to the console only). *)
Record state : Type := mk_state {
  tx_queue : Redis.rlist;
  latest_alerts : list alert
}.

Definition set_tx_queue (q : Redis.rlist) (st : state) : state :=
  mk_state q (latest_alerts st).

Definition set_latest_alerts (l : list alert) (st : state) : state :=
  mk_state (tx_queue st) l.

Definition init (q : Redis.rlist) : state := mk_state q [].

Inductive outcome : Type :=
| Done (st : state)
| Raised (st : state).

(** [simple_risk_score(tx)], lines 30-38. *)
Definition simple_risk_score (tx : tx_data) : Py.num :=
  let score := Py.Int 0 in
  let score :=
    if Py.gtb (Py.Float (t_value tx)) (Py.Int 100)
    then Py.add score (Py.Float 0.5) else score in
  let score :=
    if Py.gtb (Py.Float (t_gas tx)) (Py.Int 50)
    then Py.add score (Py.Float 0.3) else score in
  let score :=
    if Py.startswith (Py.lower (t_from tx)) "0xabc"
    then Py.add score (Py.Float 0.3) else score in
  Py.min score (Py.Float 1.0).

(** Lines 81-82: insert the alert at index 0, then keep [[:10]]. *)
Definition cache_alert (a : alert) (st : state) : state :=
  let l := Py.insert0 a (latest_alerts st) in
  set_latest_alerts (Py.slice_to 10 l) st.

(** [get_alerts()], lines 87-89: no parameter is declared, so a [threshold]
    in the query string never reaches the handler. *)
Definition get_alerts (st : state)
  : FastAPI.response (list alert) * state :=
  (FastAPI.JSONResponse (latest_alerts st), st).

Section Program.

Variable hex : HexBytes -> string.
Variable get_transaction : HexBytes -> option chain_tx.
Variable json_dumps : tx_data -> string.
Variable json_loads : string -> option tx_data.

(** Lines 48-56. *)
Definition build_tx_data (now : string) (tx_hash : HexBytes) : option tx_data :=
  match get_transaction tx_hash with
  | None => None
  | Some tx =>
      match Py.int_truediv_float (c_value tx) 1e18,
            Py.int_truediv_float (c_gasPrice tx) 1e9 with
      | Some value, Some gas =>
          Some (mk_tx (hex (c_hash tx)) (c_from tx) (c_to tx) value gas now)
      | _, _ => None
      end
  end.

(** Line 57 (line 58 prints). *)
Definition enqueue (tx_data : tx_data) (st : state) : state :=
  set_tx_queue (Redis.lpush (json_dumps tx_data) (tx_queue st)) st.

(** The [try] block of lines 47-58; [None] when it raises. *)
Definition listen_try (now : string) (tx_hash : HexBytes) (st : state)
  : option state :=
  match build_tx_data now tx_hash with
  | Some tx_data => Some (enqueue tx_data st)
  | None => None
  end.

(** One iteration of [for tx_hash in tx_hashes], with its
    [except Exception: continue]. *)
Definition listen_entry (st : state) (e : HexBytes * string) : state :=
  match listen_try (snd e) (fst e) st with
  | Some st' => st'
  | None => st
  end.

Definition listen_poll (st : state) (tx_hashes : list (HexBytes * string))
  : state :=
  fold_left listen_entry tx_hashes st.

Definition listen_pending_tx (polls : list (list (HexBytes * string)))
  (st : state) : state :=
  fold_left listen_poll polls st.

(** Lines 71-82. *)
Definition score_and_cache (tx : tx_data) (st : state) : state :=
  let score := simple_risk_score tx in
  if Py.geb score (Py.Float 0.8) then
    let alert :=
      mk_alert (t_hash tx) score (t_from tx) (t_to tx) (t_timestamp tx) in
    cache_alert alert st
  else st.

(** One iteration of the [while True] of [consume_tx], lines 68-84. *)
Definition consume_iter (st : state) : outcome :=
  let (tx_json, q) := Redis.rpop (tx_queue st) in
  let st := set_tx_queue q st in
  match tx_json with
  | Some s =>
      if Py.truthy s then
        match json_loads s with
        | Some tx => Done (score_and_cache tx st)
        | None => Raised st
        end
      else Done st
  | None => Done st
  end.

Fixpoint consume_loop (n : nat) (st : state) : outcome :=
  match n with
  | O => Done st
  | S n' =>
      match consume_iter st with
      | Done st' => consume_loop n' st'
      | Raised st' => Raised st'
      end
  end.

Definition consume_tx (n : nat) (st : state) : outcome := consume_loop n st.

Inductive reachable : state -> Prop :=
| reach_init : forall q, reachable (init q)
| reach_listen : forall st e, reachable st -> reachable (listen_entry st e)
| reach_consume_done : forall st st',
    reachable st -> consume_iter st = Done st' -> reachable st'
| reach_consume_raised : forall st st',
    reachable st -> consume_iter st = Raised st' -> reachable st'
| reach_get_alerts : forall st, reachable st -> reachable (snd (get_alerts st))
| reach_push : forall st s,
    reachable st -> reachable (set_tx_queue (Redis.lpush s (tx_queue st)) st).

End Program.

End Render.

(* ------------------------------------------------------------------------- *)
(** ** The three scoring rules, as conditions on a record *)

Definition rule_value (tx : tx_data) : bool :=
  Py.gtb (Py.Float (t_value tx)) (Py.Int 100).

Definition rule_gas (tx : tx_data) : bool :=
  Py.gtb (Py.Float (t_gas tx)) (Py.Int 50).

Definition rule_from (tx : tx_data) : bool :=
  Py.startswith (Py.lower (t_from tx)) "0xabc".

(** Every rule that [t1] satisfies is satisfied by [t2]. *)
Definition rules_subset (t1 t2 : tx_data) : bool :=
  implb (rule_value t1) (rule_value t2)
  && implb (rule_gas t1) (rule_gas t2)
  && implb (rule_from t1) (rule_from t2).

(** Sample records. *)
Definition tx_all_rules : tx_data :=
  mk_tx "0x1" "0xABC123" (Some "0xdef") 150 60 "2024-01-01T00:00:00".

Definition tx_no_rule : tx_data :=
  mk_tx "0x2" "0x123abc" None 1 1 "2024-01-01T00:00:01".

Definition tx_gas_only : tx_data :=
  mk_tx "0x3" "0x999" (Some "0xdef") 2 75 "2024-01-01T00:00:02".

(** [l1] is [l2] with some elements left out, the others in their order. *)
Inductive subseq {A : Type} : list A -> list A -> Prop :=
| subseq_nil : subseq [] []
| subseq_skip : forall x l1 l2, subseq l1 l2 -> subseq l1 (x :: l2)
| subseq_take : forall x l1 l2, subseq l1 l2 -> subseq (x :: l1) (x :: l2).

Definition alert_of (tx : tx_data) (score : Py.num) : alert :=
  mk_alert (t_hash tx) score (t_from tx) (t_to tx) (t_timestamp tx).

(** A state of the second version holding three alerts and one log line. *)
Definition sample_state : Render1.state :=
  Render1.mk_state
    ["queued payload"]
    [alert_of tx_gas_only (Py.Float 0.3);
     alert_of tx_all_rules (Py.Float 1.0);
     alert_of tx_no_rule (Py.Float 0.8)]
    ["started"].

(** The score an alert must have to be kept by the second version. *)
Definition qualifies (a : alert) : Prop :=
  Py.geb (a_risk_score a) (Py.Float 0.3) = true.

(** The score an alert must have to be kept by the first version. *)
Definition qualifies0 (a : alert) : Prop :=
  Py.geb (a_risk_score a) (Py.Float 0.8) = true.

(** The state invariant of the second version: both caches within their
    capacity, every cached alert at or above the retention score. *)
Definition inv1 (st : Render1.state) : Prop :=
  List.length (Render1.latest_alerts st) <= 10 /\
  List.length (Render1.transaction_logs st) <= 20 /\
  Forall qualifies (Render1.latest_alerts st).

(** The state invariant of the first version. *)
Definition inv0 (st : Render.state) : Prop :=
  List.length (Render.latest_alerts st) <= 10 /\
  Forall qualifies0 (Render.latest_alerts st).

(** The state an iteration of the consumer leaves behind, however it ends. *)
Definition state_of1 (o : Render1.outcome) : Render1.state :=
  match o with
  | Render1.Done st => st
  | Render1.Raised st => st
  end.

Definition state_of0 (o : Render.outcome) : Render.state :=
  match o with
  | Render.Done st => st
  | Render.Raised st => st
  end.

(** A sample environment: a node that knows one transaction, a payload
    format for the records built from it, and a float printer. *)
Definition sample_hex (b : HexBytes) : string := "0x" ++ b.

Definition sample_get_transaction (h : HexBytes) : option chain_tx :=
  if (h =? "aa")%string
  then Some (mk_chain_tx "aa" "0xABC123" (Some "0xdef")
               150000000000000000000 60000000000)
  else None.

Definition sample_json_dumps (d : tx_data) : string :=
  t_hash d ++ "@" ++ t_timestamp d.

Definition sample_json_loads (s : string) : option tx_data :=
  if (s =? "0xaa@t1")%string
  then Some (mk_tx "0xaa" "0xABC123" (Some "0xdef") 150 60 "t1")
  else if (s =? "0xaa@t3")%string
  then Some (mk_tx "0xaa" "0xABC123" (Some "0xdef") 150 60 "t3")
  else None.

Definition sample_repr_float (x : float) : string :=
  if (x =? 1)%float then "1.0" else "0.x".

(** Fifteen alerts, numbered by their hash. *)
Definition numbered_alert (n : nat) : alert :=
  mk_alert (Py.str_int (Z.of_nat n)) (Py.Float 1.0) "0xabc" None "t".

Definition fifteen_alerts : list alert := map numbered_alert (seq 1 15).

(** The records a poll builds, in the order of its identifiers: one for each
    identifier whose resolution and normalisation succeed. *)
Definition built1 (hex : HexBytes -> string)
  (get_transaction : HexBytes -> option chain_tx)
  (tx_hashes : list (HexBytes * string)) : list tx_data :=
  flat_map
    (fun e =>
       match Render1.build_tx_data hex get_transaction (snd e) (fst e) with
       | Some d => [d]
       | None => []
       end)
    tx_hashes.

Definition built0 (hex : HexBytes -> string)
  (get_transaction : HexBytes -> option chain_tx)
  (tx_hashes : list (HexBytes * string)) : list tx_data :=
  flat_map
    (fun e =>
       match Render.build_tx_data hex get_transaction (snd e) (fst e) with
       | Some d => [d]
       | None => []
       end)
    tx_hashes.

(** A poll of three identifiers; the node does not know the second. *)
Definition sample_poll : list (HexBytes * string) :=
  [("aa", "t1"); ("bb", "t2"); ("aa", "t3")].

(** The two records the sample poll builds. *)
Definition sample_tx1 : tx_data :=
  mk_tx "0xaa" "0xABC123" (Some "0xdef") 150 60 "t1".


(** The second version after the sample poll, and after the consumer has
    taken the first record. *)
Definition sample_polled : Render1.state :=
  Render1.listen_poll sample_hex sample_get_transaction sample_json_dumps
    (Render1.init []) sample_poll.

Definition sample_consumed : Render1.state :=
  state_of1 (Render1.consume_iter sample_json_loads sample_repr_float
               sample_polled).

(** A state whose queue holds, oldest last, a payload that does not decode
    followed by one that does. *)
Definition sample_garbled : Render1.state :=
  Render1.mk_state ["0xaa@t1"; "not json"] [] ["started"].

(** A state of the first version with the same queue as [sample_state]. *)
Definition sample_state0 : Render.state :=
  Render.mk_state ["queued payload"] [].

(* ========================================================================= *)
(** * Properties *)

(** ** The scorer *)

(** The score is decided by which of the three rules hold. *)
Lemma score1_by_rules (tx : tx_data) :
  Render1.simple_risk_score tx =
  Py.min
    (let s := Py.Int 0 in
     let s := if rule_value tx then Py.add s (Py.Float 0.5) else s in
     let s := if rule_gas tx then Py.add s (Py.Float 0.3) else s in
     if rule_from tx then Py.add s (Py.Float 0.3) else s)
    (Py.Float 1.0).
Proof. reflexivity. Qed.

Lemma score0_by_rules (tx : tx_data) :
  Render.simple_risk_score tx =
  Py.min
    (let s := Py.Int 0 in
     let s := if rule_value tx then Py.add s (Py.Float 0.5) else s in
     let s := if rule_gas tx then Py.add s (Py.Float 0.3) else s in
     if rule_from tx then Py.add s (Py.Float 0.3) else s)
    (Py.Float 1.0).
Proof. reflexivity. Qed.

(** The six values the scorer can return. *)
Lemma score1_cases (tx : tx_data) :
  Render1.simple_risk_score tx =
  match rule_value tx, rule_gas tx, rule_from tx with
  | true, true, true => Py.Float 1.0
  | true, true, false => Py.Float 0.8
  | true, false, true => Py.Float 0.8
  | true, false, false => Py.Float 0.5
  | false, true, true => Py.Float 0.6
  | false, true, false => Py.Float 0.3
  | false, false, true => Py.Float 0.3
  | false, false, false => Py.Int 0
  end.
Proof.
  rewrite score1_by_rules.
  destruct (rule_value tx), (rule_gas tx), (rule_from tx);
    vm_compute; reflexivity.
Qed.

Lemma score0_cases (tx : tx_data) :
  Render.simple_risk_score tx =
  match rule_value tx, rule_gas tx, rule_from tx with
  | true, true, true => Py.Float 1.0
  | true, true, false => Py.Float 0.8
  | true, false, true => Py.Float 0.8
  | true, false, false => Py.Float 0.5
  | false, true, true => Py.Float 0.6
  | false, true, false => Py.Float 0.3
  | false, false, true => Py.Float 0.3
  | false, false, false => Py.Int 0
  end.
Proof.
  rewrite score0_by_rules.
  destruct (rule_value tx), (rule_gas tx), (rule_from tx);
    vm_compute; reflexivity.
Qed.

(** C2.  A record with [value > 100], [gas > 50] and a [from] address whose
    lowercase form starts with [0xabc] scores exactly [1.0]; a record that
    satisfies none of the three rules scores zero (the int [0] the function
    started from, which Python's [==] identifies with [0.0]).  Both versions. *)
Theorem score_all_rules_and_no_rule (tx : tx_data) :
  (rule_value tx = true -> rule_gas tx = true -> rule_from tx = true ->
   Render1.simple_risk_score tx = Py.Float 1.0 /\
   Render.simple_risk_score tx = Py.Float 1.0)
  /\
  (rule_value tx = false -> rule_gas tx = false -> rule_from tx = false ->
   Render1.simple_risk_score tx = Py.Int 0 /\
   Render.simple_risk_score tx = Py.Int 0 /\
   Py.eqb (Render1.simple_risk_score tx) (Py.Float 0.0) = true /\
   Py.eqb (Render.simple_risk_score tx) (Py.Float 0.0) = true).
Proof.
  split; intros Hv Hg Hf;
    rewrite score1_cases, score0_cases, Hv, Hg, Hf;
    repeat split; reflexivity.
Qed.

Lemma score_all_rules_and_no_rule_witness :
  (Render1.simple_risk_score tx_all_rules = Py.Float 1.0 /\
   Render.simple_risk_score tx_all_rules = Py.Float 1.0)
  /\
  (Render1.simple_risk_score tx_no_rule = Py.Int 0 /\
   Render.simple_risk_score tx_no_rule = Py.Int 0 /\
   Py.eqb (Render1.simple_risk_score tx_no_rule) (Py.Float 0.0) = true /\
   Py.eqb (Render.simple_risk_score tx_no_rule) (Py.Float 0.0) = true).
Proof.
  split.
  - apply (proj1 (score_all_rules_and_no_rule tx_all_rules)); reflexivity.
  - apply (proj2 (score_all_rules_and_no_rule tx_no_rule)); reflexivity.
Defined.

(** The order of the six scores, used for monotonicity. *)
Lemma score_table_monotone (v1 g1 f1 v2 g2 f2 : bool) :
  implb v1 v2 && implb g1 g2 && implb f1 f2 = true ->
  let table (v g f : bool) :=
    match v, g, f with
    | true, true, true => Py.Float 1.0
    | true, true, false => Py.Float 0.8
    | true, false, true => Py.Float 0.8
    | true, false, false => Py.Float 0.5
    | false, true, true => Py.Float 0.6
    | false, true, false => Py.Float 0.3
    | false, false, true => Py.Float 0.3
    | false, false, false => Py.Int 0
    end in
  Py.leb (table v1 g1 f1) (table v2 g2 f2) = true.
Proof.
  destruct v1, g1, f1, v2, g2, f2; simpl; intros H;
    try discriminate H; vm_compute; reflexivity.
Qed.

(** C6.  When the second record satisfies every rule the first one does, its
    score is at least the first one's; and no score exceeds [1.0].  Both
    versions. *)
Theorem score_monotone_and_capped :
  (forall t1 t2 : tx_data,
      rules_subset t1 t2 = true ->
      Py.leb (Render1.simple_risk_score t1) (Render1.simple_risk_score t2) = true /\
      Py.leb (Render.simple_risk_score t1) (Render.simple_risk_score t2) = true)
  /\
  (forall t : tx_data,
      Py.leb (Render1.simple_risk_score t) (Py.Float 1.0) = true /\
      Py.leb (Render.simple_risk_score t) (Py.Float 1.0) = true).
Proof.
  split.
  - intros t1 t2 H. unfold rules_subset in H.
    rewrite ?score1_cases, ?score0_cases.
    split; apply (score_table_monotone _ _ _ _ _ _ H).
  - intros t. rewrite score1_cases, score0_cases.
    destruct (rule_value t), (rule_gas t), (rule_from t);
      split; vm_compute; reflexivity.
Qed.

Lemma score_monotone_and_capped_witness :
  rules_subset tx_gas_only tx_all_rules = true /\
  Py.leb (Render1.simple_risk_score tx_gas_only)
         (Render1.simple_risk_score tx_all_rules) = true.
Proof.
  split; [reflexivity|].
  apply (proj1 score_monotone_and_capped tx_gas_only tx_all_rules).
  reflexivity.
Defined.

(** C10.  The scoring functions of the two versions return the same value on
    every record. *)
Theorem simple_risk_score_versions_agree (tx : tx_data) :
  Render.simple_risk_score tx = Render1.simple_risk_score tx.
Proof.
  rewrite score0_cases, score1_cases. reflexivity.
Qed.

(** ** The query service *)

Lemma filter_subseq {A : Type} (p : A -> bool) (l : list A) :
  subseq (filter p l) l.
Proof.
  induction l as [|x l IH]; simpl.
  - constructor.
  - destruct (p x); constructor; exact IH.
Qed.

(** C1.  For a threshold within [[0,1]], [get_alerts] answers with the
    threshold and with exactly the cached alerts whose [risk_score] is at
    least the threshold, in cache order, and leaves the state alone; a request
    without the parameter is answered as one with [0.8]. *)
Theorem get_alerts_filters_by_threshold (st : Render1.state) (t : float) :
  (0.0 <=? t)%float = true ->
  (t <=? 1.0)%float = true ->
  let kept :=
    filter (fun a => Py.geb (a_risk_score a) (Py.Float t))
           (Render1.latest_alerts st) in
  Render1.get_alerts (Some t) st =
    (FastAPI.JSONResponse (Render1.mk_alerts_content t kept), st)
  /\ (forall a, In a kept <->
                In a (Render1.latest_alerts st) /\
                Py.geb (a_risk_score a) (Py.Float t) = true)
  /\ subseq kept (Render1.latest_alerts st)
  /\ Render1.get_alerts None st = Render1.get_alerts (Some 0.8%float) st.
Proof.
  intros Hlo Hhi kept.
  assert (Hval : FastAPI.validate Render1.threshold_query (Some t) = Some t).
  { unfold FastAPI.validate, Render1.threshold_query.
    cbn [FastAPI.q_ge FastAPI.q_le]. rewrite Hlo, Hhi. reflexivity. }
  split; [|split; [|split]].
  - unfold Render1.get_alerts. rewrite Hval. reflexivity.
  - intros a. unfold kept. rewrite filter_In. reflexivity.
  - apply filter_subseq.
  - reflexivity.
Qed.

Lemma get_alerts_filters_by_threshold_witness :
  Render1.get_alerts (Some 0.5%float) sample_state =
    (FastAPI.JSONResponse
       (Render1.mk_alerts_content 0.5
          [alert_of tx_all_rules (Py.Float 1.0);
           alert_of tx_no_rule (Py.Float 0.8)]),
     sample_state).
Proof.
  exact (proj1 (get_alerts_filters_by_threshold sample_state 0.5%float
                  eq_refl eq_refl)).
Defined.

(** C4.  A threshold outside [[0,1]] is rejected before the handler runs:
    the caller receives the validation error and the state is unchanged. *)
Theorem get_alerts_rejects_out_of_range (st : Render1.state) (t : float) :
  ((0.0 <=? t) && (t <=? 1.0))%float = false ->
  Render1.get_alerts (Some t) st = (FastAPI.RequestValidationError, st).
Proof.
  intros H.
  unfold Render1.get_alerts, FastAPI.validate, Render1.threshold_query.
  cbn [FastAPI.q_ge FastAPI.q_le]. rewrite H. reflexivity.
Qed.

Lemma get_alerts_rejects_out_of_range_witness :
  Render1.get_alerts (Some 1.1%float) sample_state =
    (FastAPI.RequestValidationError, sample_state).
Proof.
  apply (get_alerts_rejects_out_of_range sample_state 1.1%float). reflexivity.
Defined.

(** The first version's handler has no threshold: it answers with the whole
    cache, whatever the request carries. *)
Lemma render_get_alerts_whole_cache (st : Render.state) :
  Render.get_alerts st = (FastAPI.JSONResponse (Render.latest_alerts st), st).
Proof. reflexivity. Qed.

(** No query changes the state. *)
Lemma get_alerts_state (sent : option float) (st : Render1.state) :
  snd (Render1.get_alerts sent st) = st.
Proof.
  unfold Render1.get_alerts.
  destruct (FastAPI.validate Render1.threshold_query sent); reflexivity.
Qed.

(** ** Bounded caches *)

Lemma firstn_app_firstn {A : Type} (n : nat) (l m : list A) :
  firstn n (l ++ firstn n m) = firstn n (l ++ m).
Proof.
  rewrite !firstn_app, firstn_firstn.
  replace (Nat.min (n - List.length l) n) with (n - List.length l) by lia.
  reflexivity.
Qed.

Lemma Forall_firstn_keep {A : Type} (P : A -> Prop) (n : nat) (l : list A) :
  Forall P l -> Forall P (firstn n l).
Proof.
  intros H. rewrite <- (firstn_skipn n l) in H.
  apply Forall_app in H. exact (proj1 H).
Qed.

(** Inserting at the head of a full list and dropping the element past the
    capacity removes the last element of the list. *)
Lemma firstn_cons_full {A : Type} (n : nat) (x : A) (l : list A) :
  List.length l = S n -> firstn (S n) (x :: l) = x :: removelast l.
Proof.
  intros H. cbn [firstn]. f_equal.
  rewrite removelast_firstn_len, H. reflexivity.
Qed.

(** [log_message] keeps the newest 20 lines. *)
Lemma log_message_logs (msg : string) (st : Render1.state) :
  List.length (Render1.transaction_logs st) <= 20 ->
  Render1.transaction_logs (Render1.log_message msg st) =
  firstn 20 (msg :: Render1.transaction_logs st).
Proof.
  intros H. unfold Render1.log_message, Py.insert0, Py.pop.
  cbn [Render1.transaction_logs Render1.set_transaction_logs].
  destruct (Nat.ltb_spec 20 (List.length (msg :: Render1.transaction_logs st)))
    as [Hfull | Hroom].
  - cbn [List.length] in Hfull.
    rewrite removelast_firstn_len. cbn [List.length Nat.pred].
    replace (List.length (Render1.transaction_logs st)) with 20 by lia.
    reflexivity.
  - symmetry. apply firstn_all2. exact Hroom.
Qed.

Lemma log_message_alerts (msg : string) (st : Render1.state) :
  Render1.latest_alerts (Render1.log_message msg st) = Render1.latest_alerts st.
Proof. reflexivity. Qed.

Lemma log_message_queue (msg : string) (st : Render1.state) :
  Render1.tx_queue (Render1.log_message msg st) = Render1.tx_queue st.
Proof. reflexivity. Qed.

Lemma inv1_log_message (msg : string) (st : Render1.state) :
  inv1 st -> inv1 (Render1.log_message msg st).
Proof.
  intros (Ha & Hl & Hq). unfold inv1.
  rewrite log_message_alerts, (log_message_logs msg st Hl).
  repeat split; try assumption. apply firstn_le_length.
Qed.

Lemma inv1_set_tx_queue (q : Redis.rlist) (st : Render1.state) :
  inv1 st -> inv1 (Render1.set_tx_queue q st).
Proof. intros H. exact H. Qed.

Lemma inv1_cache_alert (a : alert) (st : Render1.state) :
  qualifies a -> inv1 st -> inv1 (Render1.cache_alert a st).
Proof.
  intros Hqa (Ha & Hl & Hq). unfold inv1, Render1.cache_alert.
  cbn [Render1.latest_alerts Render1.transaction_logs Render1.set_latest_alerts].
  unfold Py.slice_to, Py.insert0. repeat split.
  - apply firstn_le_length.
  - exact Hl.
  - apply Forall_firstn_keep. constructor; assumption.
Qed.

Lemma inv0_cache_alert (a : alert) (st : Render.state) :
  qualifies0 a -> inv0 st -> inv0 (Render.cache_alert a st).
Proof.
  intros Hqa (Ha & Hq). unfold inv0, Render.cache_alert.
  cbn [Render.latest_alerts Render.set_latest_alerts].
  unfold Py.slice_to, Py.insert0. split.
  - apply firstn_le_length.
  - apply Forall_firstn_keep. constructor; assumption.
Qed.

(** ** The two loops *)

Section Pipeline.

Variable hex : HexBytes -> string.
Variable get_transaction : HexBytes -> option chain_tx.
Variable json_dumps : tx_data -> string.
Variable json_loads : string -> option tx_data.
Variable repr_float : float -> string.

Local Abbreviation reachable1 :=
  (Render1.reachable hex get_transaction json_dumps json_loads repr_float).
Local Abbreviation reachable0 :=
  (Render.reachable hex get_transaction json_dumps json_loads).
Local Abbreviation consume_iter1 := (Render1.consume_iter json_loads repr_float).
Local Abbreviation consume_iter0 := (Render.consume_iter json_loads).
Local Abbreviation score_and_cache1 := (Render1.score_and_cache repr_float).
Local Abbreviation listen_entry1 := (Render1.listen_entry hex get_transaction json_dumps).
Local Abbreviation listen_entry0 := (Render.listen_entry hex get_transaction json_dumps).
Local Abbreviation listen_poll1 := (Render1.listen_poll hex get_transaction json_dumps).
Local Abbreviation listen_poll0 := (Render.listen_poll hex get_transaction json_dumps).
Local Abbreviation build_tx_data1 := (Render1.build_tx_data hex get_transaction).
Local Abbreviation build_tx_data0 := (Render.build_tx_data hex get_transaction).

(** What one iteration of the consumer does, by what it pops. *)
Lemma consume_iter1_popped (st : Render1.state) (s : string) (q : Redis.rlist)
  (tx : tx_data) :
  Redis.rpop (Render1.tx_queue st) = (Some s, q) ->
  Py.truthy s = true ->
  json_loads s = Some tx ->
  consume_iter1 st =
  Render1.Done (score_and_cache1 tx (Render1.set_tx_queue q st)).
Proof.
  intros Hpop Ht Hl. unfold Render1.consume_iter.
  rewrite Hpop, Ht, Hl. reflexivity.
Qed.

Lemma consume_iter0_popped (st : Render.state) (s : string) (q : Redis.rlist)
  (tx : tx_data) :
  Redis.rpop (Render.tx_queue st) = (Some s, q) ->
  Py.truthy s = true ->
  json_loads s = Some tx ->
  consume_iter0 st =
  Render.Done (Render.score_and_cache tx (Render.set_tx_queue q st)).
Proof.
  intros Hpop Ht Hl. unfold Render.consume_iter.
  rewrite Hpop, Ht, Hl. reflexivity.
Qed.

(** The alert cache after scoring one record. *)
Lemma score_and_cache1_alerts (tx : tx_data) (st : Render1.state) :
  Render1.latest_alerts (score_and_cache1 tx st) =
  if Py.geb (Render1.simple_risk_score tx) (Py.Float 0.3)
  then firstn 10 (alert_of tx (Render1.simple_risk_score tx)
                    :: Render1.latest_alerts st)
  else Render1.latest_alerts st.
Proof.
  unfold Render1.score_and_cache.
  destruct (Py.geb (Render1.simple_risk_score tx) (Py.Float 0.3)); reflexivity.
Qed.

Lemma score_and_cache0_alerts (tx : tx_data) (st : Render.state) :
  Render.latest_alerts (Render.score_and_cache tx st) =
  if Py.geb (Render.simple_risk_score tx) (Py.Float 0.8)
  then firstn 10 (alert_of tx (Render.simple_risk_score tx)
                    :: Render.latest_alerts st)
  else Render.latest_alerts st.
Proof.
  unfold Render.score_and_cache.
  destruct (Py.geb (Render.simple_risk_score tx) (Py.Float 0.8)); reflexivity.
Qed.

Lemma inv1_score_and_cache (tx : tx_data) (st : Render1.state) :
  inv1 st -> inv1 (score_and_cache1 tx st).
Proof.
  intros H. unfold Render1.score_and_cache.
  destruct (Py.geb (Render1.simple_risk_score tx) (Py.Float 0.3)) eqn:Hs.
  - apply inv1_cache_alert; [exact Hs | apply inv1_log_message; exact H].
  - apply inv1_log_message. exact H.
Qed.

Lemma inv0_score_and_cache (tx : tx_data) (st : Render.state) :
  inv0 st -> inv0 (Render.score_and_cache tx st).
Proof.
  intros H. unfold Render.score_and_cache.
  destruct (Py.geb (Render.simple_risk_score tx) (Py.Float 0.8)) eqn:Hs.
  - apply inv0_cache_alert; [exact Hs | exact H].
  - exact H.
Qed.

Lemma inv1_consume_iter (st : Render1.state) :
  inv1 st -> inv1 (state_of1 (consume_iter1 st)).
Proof.
  intros H. unfold Render1.consume_iter.
  destruct (Redis.rpop (Render1.tx_queue st)) as [[s|] q]; cbn [state_of1].
  - destruct (Py.truthy s); [|exact H].
    destruct (json_loads s) as [tx|]; cbn [state_of1]; [|exact H].
    apply inv1_score_and_cache. exact H.
  - exact H.
Qed.

Lemma inv0_consume_iter (st : Render.state) :
  inv0 st -> inv0 (state_of0 (consume_iter0 st)).
Proof.
  intros H. unfold Render.consume_iter.
  destruct (Redis.rpop (Render.tx_queue st)) as [[s|] q]; cbn [state_of0].
  - destruct (Py.truthy s); [|exact H].
    destruct (json_loads s) as [tx|]; cbn [state_of0]; [|exact H].
    apply inv0_score_and_cache. exact H.
  - exact H.
Qed.

Lemma inv1_listen_entry (st : Render1.state) (e : HexBytes * string) :
  inv1 st -> inv1 (listen_entry1 st e).
Proof.
  intros H. unfold Render1.listen_entry, Render1.listen_try.
  destruct (build_tx_data1 (snd e) (fst e)) as [d|]; [|exact H].
  unfold Render1.enqueue. apply inv1_log_message. exact H.
Qed.

Lemma inv0_listen_entry (st : Render.state) (e : HexBytes * string) :
  inv0 st -> inv0 (listen_entry0 st e).
Proof.
  intros H. unfold Render.listen_entry, Render.listen_try.
  destruct (build_tx_data0 (snd e) (fst e)) as [d|]; exact H.
Qed.

(** Every reachable state satisfies the invariant. *)
Lemma reachable1_inv1 (st : Render1.state) : reachable1 st -> inv1 st.
Proof.
  induction 1 as [q | st msg _ IH | st e _ IH | st st' _ IH Hc | st st' _ IH Hc
                  | st sent _ IH | st _ IH | st s _ IH].
  - unfold inv1; cbn. repeat split; try lia. constructor.
  - apply inv1_log_message; exact IH.
  - apply inv1_listen_entry; exact IH.
  - apply inv1_consume_iter in IH. rewrite Hc in IH. exact IH.
  - apply inv1_consume_iter in IH. rewrite Hc in IH. exact IH.
  - rewrite get_alerts_state. exact IH.
  - exact IH.
  - exact IH.
Qed.

Lemma reachable0_inv0 (st : Render.state) : reachable0 st -> inv0 st.
Proof.
  induction 1 as [q | st e _ IH | st st' _ IH Hc | st st' _ IH Hc
                  | st _ IH | st s _ IH].
  - unfold inv0; cbn. split; [lia | constructor].
  - apply inv0_listen_entry; exact IH.
  - apply inv0_consume_iter in IH. rewrite Hc in IH. exact IH.
  - apply inv0_consume_iter in IH. rewrite Hc in IH. exact IH.
  - exact IH.
  - exact IH.
Qed.

(** A bounded most-recent-first cache holds the newest entries of its
    insertion history. *)
Lemma fold_log_message (msgs : list string) (st : Render1.state) :
  List.length (Render1.transaction_logs st) <= 20 ->
  Render1.transaction_logs
    (fold_left (fun s m => Render1.log_message m s) msgs st) =
  firstn 20 (rev msgs ++ Render1.transaction_logs st).
Proof.
  revert st. induction msgs as [|m msgs IH]; intros st H; cbn [fold_left rev].
  - rewrite app_nil_l, firstn_all2; [reflexivity | exact H].
  - rewrite IH.
    + rewrite (log_message_logs m st H), firstn_app_firstn, <- app_assoc.
      reflexivity.
    + rewrite (log_message_logs m st H). apply firstn_le_length.
Qed.

Lemma fold_cache_alert1 (new : list alert) (st : Render1.state) :
  List.length (Render1.latest_alerts st) <= 10 ->
  Render1.latest_alerts
    (fold_left (fun s a => Render1.cache_alert a s) new st) =
  firstn 10 (rev new ++ Render1.latest_alerts st).
Proof.
  revert st. induction new as [|a new IH]; intros st H; cbn [fold_left rev].
  - rewrite app_nil_l, firstn_all2; [reflexivity | exact H].
  - rewrite IH; unfold Render1.cache_alert, Py.slice_to, Py.insert0;
      cbn [Render1.latest_alerts Render1.set_latest_alerts].
    + rewrite firstn_app_firstn, <- app_assoc. reflexivity.
    + apply firstn_le_length.
Qed.

Lemma fold_cache_alert0 (new : list alert) (st : Render.state) :
  List.length (Render.latest_alerts st) <= 10 ->
  Render.latest_alerts
    (fold_left (fun s a => Render.cache_alert a s) new st) =
  firstn 10 (rev new ++ Render.latest_alerts st).
Proof.
  revert st. induction new as [|a new IH]; intros st H; cbn [fold_left rev].
  - rewrite app_nil_l, firstn_all2; [reflexivity | exact H].
  - rewrite IH; unfold Render.cache_alert, Py.slice_to, Py.insert0;
      cbn [Render.latest_alerts Render.set_latest_alerts].
    + rewrite firstn_app_firstn, <- app_assoc. reflexivity.
    + apply firstn_le_length.
Qed.

(** Two facts on the order of floats: a value at or above [0.3] is not zero,
    and a value at or above [0.8] is at or above [0.3]. *)
Lemma float_ge_03_nonzero (x : float) :
  (0.3 <=? x)%float = true -> (x =? 0)%float = false.
Proof.
  rewrite leb_spec, eqb_spec.
  destruct (Prim2SF x) as [s | s | | s m e]; try (destruct s);
    vm_compute; congruence.
Qed.

Lemma float_ge_08_ge_03 (x : float) :
  (0.8 <=? x)%float = true -> (0.3 <=? x)%float = true.
Proof.
  rewrite !leb_spec.
  replace (Prim2SF 0.8) with (S754_finite false 7205759403792794 (-53))
    by reflexivity.
  replace (Prim2SF 0.3) with (S754_finite false 5404319552844595 (-54))
    by reflexivity.
  destruct (Prim2SF x) as [s | s | | s m e]; try (destruct s);
    try (vm_compute; congruence).
  unfold SFleb, SFcompare.
  destruct (Z.compare_spec (-53) e) as [E | E | E];
    destruct (Z.compare_spec (-54) e) as [E' | E' | E'];
    try lia; try reflexivity; try discriminate.
Qed.

Lemma qualifies_nonzero (a : alert) :
  qualifies a -> Py.eqb (a_risk_score a) (Py.Float 0.0) = false.
Proof.
  unfold qualifies, Py.geb, Py.leb, Py.eqb.
  destruct (a_risk_score a) as [z | x]; cbn [Py.as_float];
    apply float_ge_03_nonzero.
Qed.

Lemma qualifies0_qualifies (a : alert) : qualifies0 a -> qualifies a.
Proof.
  unfold qualifies0, qualifies, Py.geb, Py.leb.
  destruct (a_risk_score a) as [z | x]; cbn [Py.as_float];
    apply float_ge_08_ge_03.
Qed.

(** C3.  In every reachable state the alert cache holds at most 10 entries
    and the log cache at most 20.  After any sequence of insertions a cache
    holds the newest entries of the sequence, newest first, so the entries
    that left it are the oldest ones; in particular an insertion into a full
    cache removes its last entry, the least recently inserted.  The alert
    cache of the first version behaves the same (it has no log cache). *)
Theorem caches_bounded_oldest_evicted :
  (forall st, reachable1 st ->
     List.length (Render1.latest_alerts st) <= 10 /\
     List.length (Render1.transaction_logs st) <= 20)
  /\ (forall st, reachable0 st -> List.length (Render.latest_alerts st) <= 10)
  /\ (forall q msgs,
        Render1.transaction_logs
          (fold_left (fun s m => Render1.log_message m s) msgs (Render1.init q))
        = firstn 20 (rev msgs))
  /\ (forall q new,
        Render1.latest_alerts
          (fold_left (fun s a => Render1.cache_alert a s) new (Render1.init q))
        = firstn 10 (rev new))
  /\ (forall q new,
        Render.latest_alerts
          (fold_left (fun s a => Render.cache_alert a s) new (Render.init q))
        = firstn 10 (rev new))
  /\ (forall st msg,
        List.length (Render1.transaction_logs st) = 20 ->
        Render1.transaction_logs (Render1.log_message msg st)
        = msg :: removelast (Render1.transaction_logs st))
  /\ (forall st a,
        List.length (Render1.latest_alerts st) = 10 ->
        Render1.latest_alerts (Render1.cache_alert a st)
        = a :: removelast (Render1.latest_alerts st))
  /\ (forall st a,
        List.length (Render.latest_alerts st) = 10 ->
        Render.latest_alerts (Render.cache_alert a st)
        = a :: removelast (Render.latest_alerts st)).
Proof.
  repeat apply conj.
  - intros st H. apply reachable1_inv1 in H.
    destruct H as (Ha & Hl & _). split; assumption.
  - intros st H. apply reachable0_inv0 in H. exact (proj1 H).
  - intros q msgs. rewrite fold_log_message; cbn; [|lia].
    rewrite app_nil_r. reflexivity.
  - intros q new. rewrite fold_cache_alert1; cbn; [|lia].
    rewrite app_nil_r. reflexivity.
  - intros q new. rewrite fold_cache_alert0; cbn; [|lia].
    rewrite app_nil_r. reflexivity.
  - intros st msg H. rewrite log_message_logs by lia.
    apply firstn_cons_full. exact H.
  - intros st a H. unfold Render1.cache_alert, Py.slice_to, Py.insert0.
    cbn [Render1.latest_alerts Render1.set_latest_alerts].
    apply firstn_cons_full. exact H.
  - intros st a H. unfold Render.cache_alert, Py.slice_to, Py.insert0.
    cbn [Render.latest_alerts Render.set_latest_alerts].
    apply firstn_cons_full. exact H.
Qed.

(** C5.  For a record popped from the queue the consumer builds the alert and
    puts it at the front of the alert cache exactly when the record's score
    is at least the retention constant ([0.3] in the second version, [0.8]
    in the first); otherwise the cache is left as it was.  The constant is a
    literal of the loop: a query, whatever threshold it carries, does not
    change what the consumer does next. *)
Theorem consumer_caches_iff_retention_score :
  (forall st s q tx,
      Redis.rpop (Render1.tx_queue st) = (Some s, q) ->
      Py.truthy s = true ->
      json_loads s = Some tx ->
      exists st',
        consume_iter1 st = Render1.Done st' /\
        (Py.geb (Render1.simple_risk_score tx) (Py.Float 0.3) = true ->
         Render1.latest_alerts st' =
         alert_of tx (Render1.simple_risk_score tx)
           :: firstn 9 (Render1.latest_alerts st)) /\
        (Py.geb (Render1.simple_risk_score tx) (Py.Float 0.3) = false ->
         Render1.latest_alerts st' = Render1.latest_alerts st))
  /\ (forall st sent,
        consume_iter1 (snd (Render1.get_alerts sent st)) = consume_iter1 st)
  /\ (forall st s q tx,
        Redis.rpop (Render.tx_queue st) = (Some s, q) ->
        Py.truthy s = true ->
        json_loads s = Some tx ->
        exists st',
          consume_iter0 st = Render.Done st' /\
          (Py.geb (Render.simple_risk_score tx) (Py.Float 0.8) = true ->
           Render.latest_alerts st' =
           alert_of tx (Render.simple_risk_score tx)
             :: firstn 9 (Render.latest_alerts st)) /\
          (Py.geb (Render.simple_risk_score tx) (Py.Float 0.8) = false ->
           Render.latest_alerts st' = Render.latest_alerts st))
  /\ (forall st, consume_iter0 (snd (Render.get_alerts st)) = consume_iter0 st).
Proof.
  repeat apply conj.
  - intros st s q tx Hpop Ht Hl.
    eexists. split; [apply (consume_iter1_popped st s q tx Hpop Ht Hl)|].
    rewrite score_and_cache1_alerts.
    split; intros Hs; rewrite Hs; reflexivity.
  - intros st sent. rewrite get_alerts_state. reflexivity.
  - intros st s q tx Hpop Ht Hl.
    eexists. split; [apply (consume_iter0_popped st s q tx Hpop Ht Hl)|].
    rewrite score_and_cache0_alerts.
    split; intros Hs; rewrite Hs; reflexivity.
  - intros st. reflexivity.
Qed.

(** C9.  Every alert in the alert cache of a reachable state has a
    [risk_score] of at least [0.3], so none has score zero; and the property
    is kept by every iteration of the consumer and by every query.  It holds
    in the first version too, whose cached scores are at least [0.8]. *)
Theorem cached_alerts_score_at_least_retention :
  (forall st, reachable1 st ->
     Forall (fun a => Py.geb (a_risk_score a) (Py.Float 0.3) = true /\
                      Py.eqb (a_risk_score a) (Py.Float 0.0) = false)
            (Render1.latest_alerts st))
  /\ (forall st, reachable0 st ->
        Forall (fun a => Py.geb (a_risk_score a) (Py.Float 0.3) = true /\
                         Py.eqb (a_risk_score a) (Py.Float 0.0) = false)
               (Render.latest_alerts st))
  /\ (forall st,
        Forall qualifies (Render1.latest_alerts st) ->
        Forall qualifies (Render1.latest_alerts (state_of1 (consume_iter1 st))))
  /\ (forall st sent,
        Forall qualifies (Render1.latest_alerts st) ->
        Forall qualifies
          (Render1.latest_alerts (snd (Render1.get_alerts sent st))))
  /\ (forall st,
        Forall qualifies (Render1.latest_alerts st) ->
        Forall qualifies (Render1.latest_alerts (snd (Render1.get_logs st)))).
Proof.
  repeat apply conj.
  - intros st H. apply reachable1_inv1 in H. destruct H as (_ & _ & H).
    eapply Forall_impl; [|exact H].
    intros a Ha. split; [exact Ha | apply qualifies_nonzero; exact Ha].
  - intros st H. apply reachable0_inv0 in H. destruct H as (_ & H).
    eapply Forall_impl; [|exact H].
    intros a Ha. apply qualifies0_qualifies in Ha.
    split; [exact Ha | apply qualifies_nonzero; exact Ha].
  - intros st H. unfold Render1.consume_iter.
    destruct (Redis.rpop (Render1.tx_queue st)) as [[s|] q]; cbn [state_of1];
      [|exact H].
    destruct (Py.truthy s); [|exact H].
    destruct (json_loads s) as [tx|]; cbn [state_of1]; [|exact H].
    rewrite score_and_cache1_alerts.
    destruct (Py.geb (Render1.simple_risk_score tx) (Py.Float 0.3)) eqn:Hs;
      [|exact H].
    apply Forall_firstn_keep. constructor; [exact Hs | exact H].
  - intros st sent H. rewrite get_alerts_state. exact H.
  - intros st H. exact H.
Qed.

(** ** Producer and queue hand-off *)

Lemma listen_entry1_failed (st : Render1.state) (e : HexBytes * string) :
  build_tx_data1 (snd e) (fst e) = None -> listen_entry1 st e = st.
Proof.
  intros H. unfold Render1.listen_entry, Render1.listen_try.
  rewrite H. reflexivity.
Qed.

Lemma listen_entry0_failed (st : Render.state) (e : HexBytes * string) :
  build_tx_data0 (snd e) (fst e) = None -> listen_entry0 st e = st.
Proof.
  intros H. unfold Render.listen_entry, Render.listen_try.
  rewrite H. reflexivity.
Qed.

Lemma build_tx_data1_unresolved (now : string) (h : HexBytes) :
  get_transaction h = None -> build_tx_data1 now h = None.
Proof. intros H. unfold Render1.build_tx_data. rewrite H. reflexivity. Qed.

Lemma build_tx_data0_unresolved (now : string) (h : HexBytes) :
  get_transaction h = None -> build_tx_data0 now h = None.
Proof. intros H. unfold Render.build_tx_data. rewrite H. reflexivity. Qed.

(** C8.  When the lookup of an identifier fails, its iteration leaves the
    state as it was (nothing pushed, nothing logged, no exception leaves the
    loop), the other identifiers of the batch are handled as if the failing
    one were absent, and so are the polls that follow.  Both versions. *)
Theorem listener_skips_failed_lookup (h : HexBytes) (now : string) :
  get_transaction h = None ->
  (forall st, listen_entry1 st (h, now) = st)
  /\ (forall st before after,
        listen_poll1 st (before ++ (h, now) :: after) =
        listen_poll1 st (before ++ after))
  /\ (forall st earlier later before after,
        Render1.listen_pending_tx hex get_transaction json_dumps
          (earlier ++ (before ++ (h, now) :: after) :: later) st =
        Render1.listen_pending_tx hex get_transaction json_dumps
          (earlier ++ (before ++ after) :: later) st)
  /\ (forall st, listen_entry0 st (h, now) = st)
  /\ (forall st before after,
        listen_poll0 st (before ++ (h, now) :: after) =
        listen_poll0 st (before ++ after))
  /\ (forall st earlier later before after,
        Render.listen_pending_tx hex get_transaction json_dumps
          (earlier ++ (before ++ (h, now) :: after) :: later) st =
        Render.listen_pending_tx hex get_transaction json_dumps
          (earlier ++ (before ++ after) :: later) st).
Proof.
  intros Hfail.
  assert (E1 : forall st, listen_entry1 st (h, now) = st).
  { intros st. apply listen_entry1_failed.
    apply build_tx_data1_unresolved. exact Hfail. }
  assert (E0 : forall st, listen_entry0 st (h, now) = st).
  { intros st. apply listen_entry0_failed.
    apply build_tx_data0_unresolved. exact Hfail. }
  assert (P1 : forall st before after,
             listen_poll1 st (before ++ (h, now) :: after) =
             listen_poll1 st (before ++ after)).
  { intros st before after. unfold Render1.listen_poll.
    rewrite !fold_left_app. cbn [fold_left]. rewrite E1. reflexivity. }
  assert (P0 : forall st before after,
             listen_poll0 st (before ++ (h, now) :: after) =
             listen_poll0 st (before ++ after)).
  { intros st before after. unfold Render.listen_poll.
    rewrite !fold_left_app. cbn [fold_left]. rewrite E0. reflexivity. }
  repeat apply conj; try assumption.
  - intros st earlier later before after. unfold Render1.listen_pending_tx.
    rewrite !fold_left_app. cbn [fold_left]. rewrite P1. reflexivity.
  - intros st earlier later before after. unfold Render.listen_pending_tx.
    rewrite !fold_left_app. cbn [fold_left]. rewrite P0. reflexivity.
Qed.

(** [RPOP] takes the element pushed first. *)
Lemma rpop_snoc (q : Redis.rlist) (x : string) :
  Redis.rpop (q ++ [x]) = (Some x, q).
Proof.
  unfold Redis.rpop.
  destruct (q ++ [x]) as [|y r] eqn:E.
  - destruct q; discriminate E.
  - rewrite <- E, last_last, removelast_last. reflexivity.
Qed.

(** The queue after a poll: the payloads of the records built, newest at the
    head. *)
Lemma listen_poll1_queue (tx_hashes : list (HexBytes * string))
  (st : Render1.state) :
  Render1.tx_queue (listen_poll1 st tx_hashes) =
  rev (map json_dumps (built1 hex get_transaction tx_hashes))
  ++ Render1.tx_queue st.
Proof.
  revert st. unfold Render1.listen_poll, built1.
  induction tx_hashes as [|e es IH]; intros st; cbn [fold_left flat_map].
  - reflexivity.
  - rewrite IH, map_app, rev_app_distr, <- app_assoc. f_equal.
    unfold Render1.listen_entry, Render1.listen_try.
    destruct (build_tx_data1 (snd e) (fst e)) as [d|]; reflexivity.
Qed.

Lemma listen_poll0_queue (tx_hashes : list (HexBytes * string))
  (st : Render.state) :
  Render.tx_queue (listen_poll0 st tx_hashes) =
  rev (map json_dumps (built0 hex get_transaction tx_hashes))
  ++ Render.tx_queue st.
Proof.
  revert st. unfold Render.listen_poll, built0.
  induction tx_hashes as [|e es IH]; intros st; cbn [fold_left flat_map].
  - reflexivity.
  - rewrite IH, map_app, rev_app_distr, <- app_assoc. f_equal.
    unfold Render.listen_entry, Render.listen_try.
    destruct (build_tx_data0 (snd e) (fst e)) as [d|]; reflexivity.
Qed.

Lemma score_and_cache1_set_tx_queue (d : tx_data) (q : Redis.rlist)
  (st : Render1.state) :
  score_and_cache1 d (Render1.set_tx_queue q st) =
  Render1.set_tx_queue q (score_and_cache1 d st).
Proof.
  unfold Render1.score_and_cache.
  destruct (Py.geb (Render1.simple_risk_score d) (Py.Float 0.3)); reflexivity.
Qed.

Lemma score_and_cache0_set_tx_queue (d : tx_data) (q : Redis.rlist)
  (st : Render.state) :
  Render.score_and_cache d (Render.set_tx_queue q st) =
  Render.set_tx_queue q (Render.score_and_cache d st).
Proof.
  unfold Render.score_and_cache.
  destruct (Py.geb (Render.simple_risk_score d) (Py.Float 0.8)); reflexivity.
Qed.

Lemma truthy_nonempty (s : string) : s <> "" -> Py.truthy s = true.
Proof.
  intros H. unfold Py.truthy.
  destruct (String.eqb_spec s ""); [contradiction | reflexivity].
Qed.


Lemma consume_loop0_drains (records : list tx_data) (st : Render.state) :
  (forall d, In d records -> json_loads (json_dumps d) = Some d) ->
  json_loads "" = None ->
  Render.tx_queue st = rev (map json_dumps records) ->
  Render.consume_loop json_loads (List.length records) st =
  Render.Done
    (fold_left (fun s d => Render.score_and_cache d s) records
       (Render.set_tx_queue [] st)).
Proof.
  intros Hrt Hempty. revert st.
  induction records as [|d rs IH]; intros st Hq;
    cbn [List.length Render.consume_loop fold_left].
  - destruct st as [q a]. cbn in Hq. subst q. reflexivity.
  - cbn [map rev] in Hq.
    assert (Hd : json_loads (json_dumps d) = Some d)
      by (apply Hrt; left; reflexivity).
    assert (Hne : json_dumps d <> "").
    { intros E. rewrite E, Hempty in Hd. discriminate Hd. }
    rewrite (consume_iter0_popped st (json_dumps d)
               (rev (map json_dumps rs)) d).
    + rewrite IH.
      * rewrite !score_and_cache0_set_tx_queue. reflexivity.
      * intros d' Hin. apply Hrt. right. exact Hin.
      * rewrite score_and_cache0_set_tx_queue. reflexivity.
    + rewrite Hq. apply rpop_snoc.
    + apply truthy_nonempty. exact Hne.
    + exact Hd.
Qed.

Lemma decode_payloads (records : list tx_data) :
  (forall d, In d records -> json_loads (json_dumps d) = Some d) ->
  map json_loads (map json_dumps records) = map Some records.
Proof.
  intros H. rewrite map_map. apply map_ext_in. exact H.
Qed.


(** The same hand-off in the first version. *)
Lemma queue_hand_off_lossless_fifo_render (st : Render.state)
  (pending : list tx_data) (tx_hashes : list (HexBytes * string)) :
  let records := pending ++ built0 hex get_transaction tx_hashes in
  (forall d, In d records -> json_loads (json_dumps d) = Some d) ->
  json_loads "" = None ->
  Render.tx_queue st = rev (map json_dumps pending) ->
  let st1 := listen_poll0 st tx_hashes in
  rev (Render.tx_queue st1) = map json_dumps records
  /\ map json_loads (rev (Render.tx_queue st1)) = map Some records
  /\ Render.consume_loop json_loads (List.length records) st1 =
     Render.Done
       (fold_left (fun s d => Render.score_and_cache d s) records
          (Render.set_tx_queue [] st1)).
Proof.
  intros records Hrt Hempty Hq st1.
  assert (Hq1 : Render.tx_queue st1 = rev (map json_dumps records)).
  { unfold st1, records. rewrite listen_poll0_queue, Hq.
    rewrite map_app, rev_app_distr. reflexivity. }
  split; [|split].
  - rewrite Hq1. apply rev_involutive.
  - rewrite Hq1, rev_involutive. apply decode_payloads. exact Hrt.
  - apply consume_loop0_drains; assumption.
Qed.

(** The first version filters at insertion instead: in a reachable state its
    whole cache is what the second version's query returns at the default
    threshold. *)
Lemma render_cache_is_default_filter (st : Render.state) :
  reachable0 st ->
  filter (fun a => Py.geb (a_risk_score a) (Py.Float 0.8))
         (Render.latest_alerts st) = Render.latest_alerts st.
Proof.
  intros H. apply reachable0_inv0 in H. destruct H as (_ & H).
  induction H as [|a l Ha _ IH]; cbn [filter]; [reflexivity|].
  unfold qualifies0 in Ha. rewrite Ha, IH. reflexivity.
Qed.

End Pipeline.

(** ** The properties on the sample environment *)

Lemma caches_bounded_oldest_evicted_witness :
  Render1.latest_alerts
    (fold_left (fun s a => Render1.cache_alert a s) fifteen_alerts
       (Render1.init []))
  = map numbered_alert [15; 14; 13; 12; 11; 10; 9; 8; 7; 6].
Proof.
  rewrite (proj1 (proj2 (proj2 (proj2
            (caches_bounded_oldest_evicted
               sample_hex sample_get_transaction sample_json_dumps
               sample_json_loads sample_repr_float))))).
  reflexivity.
Defined.

Lemma sample_polled_reachable :
  Render1.reachable sample_hex sample_get_transaction sample_json_dumps
    sample_json_loads sample_repr_float sample_polled.
Proof.
  unfold sample_polled, Render1.listen_poll, sample_poll. cbn [fold_left].
  repeat apply Render1.reach_listen. apply Render1.reach_init.
Qed.

Lemma sample_consumed_reachable :
  Render1.reachable sample_hex sample_get_transaction sample_json_dumps
    sample_json_loads sample_repr_float sample_consumed.
Proof.
  apply (Render1.reach_consume_done _ _ _ _ _ sample_polled).
  - apply sample_polled_reachable.
  - reflexivity.
Qed.

Lemma consumer_caches_iff_retention_score_witness :
  exists st',
    Render1.consume_iter sample_json_loads sample_repr_float sample_polled =
    Render1.Done st' /\
    (Py.geb (Render1.simple_risk_score sample_tx1) (Py.Float 0.3) = true ->
     Render1.latest_alerts st' =
     alert_of sample_tx1 (Render1.simple_risk_score sample_tx1)
       :: firstn 9 (Render1.latest_alerts sample_polled)) /\
    (Py.geb (Render1.simple_risk_score sample_tx1) (Py.Float 0.3) = false ->
     Render1.latest_alerts st' = Render1.latest_alerts sample_polled).
Proof.
  apply (proj1 (consumer_caches_iff_retention_score
                  sample_json_loads sample_repr_float)
           sample_polled "0xaa@t1" ["0xaa@t3"] sample_tx1);
    reflexivity.
Defined.

Lemma cached_alerts_score_at_least_retention_witness :
  Render1.latest_alerts sample_consumed <> [] /\
  Forall (fun a => Py.geb (a_risk_score a) (Py.Float 0.3) = true /\
                   Py.eqb (a_risk_score a) (Py.Float 0.0) = false)
         (Render1.latest_alerts sample_consumed).
Proof.
  split.
  - vm_compute. discriminate.
  - apply (proj1 (cached_alerts_score_at_least_retention
                    sample_hex sample_get_transaction sample_json_dumps
                    sample_json_loads sample_repr_float)).
    apply sample_consumed_reachable.
Defined.

Lemma listener_skips_failed_lookup_witness :
  Render1.listen_poll sample_hex sample_get_transaction sample_json_dumps
    (Render1.init []) ([("aa", "t1")] ++ ("bb", "t2") :: [("aa", "t3")]) =
  Render1.listen_poll sample_hex sample_get_transaction sample_json_dumps
    (Render1.init []) ([("aa", "t1")] ++ [("aa", "t3")]).
Proof.
  apply (proj1 (proj2 (listener_skips_failed_lookup
                         sample_hex sample_get_transaction sample_json_dumps
                         "bb" "t2" eq_refl))).
Defined.


(* ========================================================================= *)
(** * Further properties of the two programs *)

(** ** Which records are kept, which are shown *)

(** The order of binary64 values is transitive. *)
Lemma SFleb_trans (x y z : spec_float) :
  SFleb x y = true -> SFleb y z = true -> SFleb x z = true.
Proof.
  unfold SFleb, SFcompare.
  destruct x as [sx | sx | | sx mx ex], y as [sy | sy | | sy my ey],
           z as [sz | sz | | sz mz ez];
    try (destruct sx); try (destruct sy); try (destruct sz);
    try reflexivity; try discriminate; intros H1 H2.
  all: change (PosDef.Pos.compare_cont Eq) with Pos.compare in *.
  all: destruct (Z.compare_spec ex ey); destruct (Z.compare_spec ey ez);
       destruct (Z.compare_spec ex ez);
       try lia; try reflexivity; try discriminate; subst.
  all: destruct (Pos.compare_spec mx my); destruct (Pos.compare_spec my mz);
       destruct (Pos.compare_spec mx mz);
       try lia; try reflexivity; try discriminate.
Qed.

Lemma float_leb_trans (x y z : float) :
  (x <=? y)%float = true -> (y <=? z)%float = true -> (x <=? z)%float = true.
Proof. rewrite !leb_spec. apply SFleb_trans. Qed.

(** A score is at or above a float threshold when the threshold is at or
    below the score read as a float. *)
Lemma geb_float (s : Py.num) (t : float) :
  Py.geb s (Py.Float t) = (t <=? Py.as_float s)%float.
Proof. destruct s; reflexivity. Qed.

Lemma geb_weaken (s : Py.num) (t1 t2 : float) :
  (t1 <=? t2)%float = true ->
  Py.geb s (Py.Float t2) = true -> Py.geb s (Py.Float t1) = true.
Proof. rewrite !geb_float. apply float_leb_trans. Qed.

Lemma filter_filter_implied {A : Type} (p q : A -> bool) (l : list A) :
  (forall a, p a = true -> q a = true) ->
  filter p (filter q l) = filter p l.
Proof.
  intros H. induction l as [|a l IH]; cbn [filter]; [reflexivity|].
  destruct (q a) eqn:Hq; cbn [filter]; rewrite IH; [reflexivity|].
  destruct (p a) eqn:Hp; [|reflexivity].
  apply H in Hp. congruence.
Qed.

Lemma filter_all {A : Type} (p : A -> bool) (l : list A) :
  Forall (fun a => p a = true) l -> filter p l = l.
Proof.
  induction 1 as [|a l Ha _ IH]; cbn [filter]; [reflexivity|].
  rewrite Ha, IH. reflexivity.
Qed.

(** X1.  The second version keeps a record exactly when it satisfies at least
    one of the three rules: after the consumer has handled the record, its
    alert is at the head of the cache in that case and the cache is unchanged
    otherwise. *)
Theorem render1_keeps_any_rule (repr_float : float -> string)
  (tx : tx_data) (st : Render1.state) :
  Render1.latest_alerts (Render1.score_and_cache repr_float tx st) =
  if rule_value tx || rule_gas tx || rule_from tx
  then alert_of tx (Render1.simple_risk_score tx)
         :: firstn 9 (Render1.latest_alerts st)
  else Render1.latest_alerts st.
Proof.
  unfold Render1.score_and_cache.
  assert (E : Py.geb (Render1.simple_risk_score tx) (Py.Float 0.3) =
              rule_value tx || rule_gas tx || rule_from tx).
  { rewrite score1_cases.
    destruct (rule_value tx), (rule_gas tx), (rule_from tx); reflexivity. }
  rewrite E.
  destruct (rule_value tx || rule_gas tx || rule_from tx); reflexivity.
Qed.

(** X2.  The first version keeps a record exactly when it satisfies the value
    rule together with one of the two others; and in the second version the
    same condition decides whether a kept alert passes the default threshold
    of the query. *)
Theorem render_keeps_value_and_another (tx : tx_data) (st : Render.state) :
  Render.latest_alerts (Render.score_and_cache tx st) =
  (if rule_value tx && (rule_gas tx || rule_from tx)
   then alert_of tx (Render.simple_risk_score tx)
          :: firstn 9 (Render.latest_alerts st)
   else Render.latest_alerts st)
  /\ Py.geb (Render1.simple_risk_score tx)
            (Py.Float (FastAPI.q_default Render1.threshold_query)) =
     rule_value tx && (rule_gas tx || rule_from tx).
Proof.
  assert (E : Py.geb (Render.simple_risk_score tx) (Py.Float 0.8) =
              rule_value tx && (rule_gas tx || rule_from tx)).
  { rewrite score0_cases.
    destruct (rule_value tx), (rule_gas tx), (rule_from tx); reflexivity. }
  split.
  - unfold Render.score_and_cache. rewrite E.
    destruct (rule_value tx && (rule_gas tx || rule_from tx)); reflexivity.
  - exact E.
Qed.

Lemma ascii_dec_same (A : Type) (a : ascii) (x y : A) :
  (if ascii_dec a a then x else y) = x.
Proof. destruct (ascii_dec a a); [reflexivity | contradiction]. Qed.

(** X3.  The address rule looks at the first five characters only and
    ignores their letter case: it holds exactly when the address is some
    prefix whose lowercase form is [0xabc] (so [0XABC] counts too) followed
    by anything. *)
Theorem from_rule_first_five_any_case (tx : tx_data) :
  rule_from tx = true <->
  exists p rest, t_from tx = (p ++ rest)%string /\ Py.lower p = "0xabc".
Proof.
  unfold rule_from, Py.startswith. split.
  - intros H.
    destruct (t_from tx) as [|c1 [|c2 [|c3 [|c4 [|c5 r]]]]];
      cbn [Py.lower String.prefix] in H;
      repeat match type of H with
             | (if ascii_dec ?a ?b then _ else _) = true =>
                 destruct (ascii_dec a b) as [? | ?]; [|discriminate H]
             end;
      try discriminate H.
    exists (String c1 (String c2 (String c3 (String c4 (String c5 ""))))), r.
    split; [reflexivity|]. cbn [Py.lower]. congruence.
  - intros (p & rest & Hfrom & Hp). rewrite Hfrom.
    destruct p as [|c1 [|c2 [|c3 [|c4 [|c5 [|c6 p]]]]]];
      cbn [Py.lower] in Hp; try discriminate Hp.
    injection Hp as H1 H2 H3 H4 H5.
    cbn [append Py.lower String.prefix].
    rewrite H1, H2, H3, H4, H5, !ascii_dec_same.
    destruct (Py.lower rest); reflexivity.
Qed.

(** X4.  Raising the threshold of a query only removes alerts: for thresholds
    [t1 <= t2] within the bounds, what the query returns at [t2] is what it
    returns at [t1] with the alerts below [t2] left out, the others in their
    order. *)
Theorem get_alerts_threshold_monotone (st : Render1.state) (t1 t2 : float) :
  (0.0 <=? t1)%float = true ->
  (t1 <=? t2)%float = true ->
  (t2 <=? 1.0)%float = true ->
  exists r1 r2,
    Render1.get_alerts (Some t1) st =
      (FastAPI.JSONResponse (Render1.mk_alerts_content t1 r1), st) /\
    Render1.get_alerts (Some t2) st =
      (FastAPI.JSONResponse (Render1.mk_alerts_content t2 r2), st) /\
    r2 = filter (fun a => Py.geb (a_risk_score a) (Py.Float t2)) r1 /\
    subseq r2 r1.
Proof.
  intros H0 H12 H1.
  assert (Hv1 : FastAPI.validate Render1.threshold_query (Some t1) = Some t1).
  { unfold FastAPI.validate, Render1.threshold_query.
    cbn [FastAPI.q_ge FastAPI.q_le].
    rewrite H0, (float_leb_trans _ _ _ H12 H1). reflexivity. }
  assert (Hv2 : FastAPI.validate Render1.threshold_query (Some t2) = Some t2).
  { unfold FastAPI.validate, Render1.threshold_query.
    cbn [FastAPI.q_ge FastAPI.q_le].
    rewrite (float_leb_trans _ _ _ H0 H12), H1. reflexivity. }
  unfold Render1.get_alerts. rewrite Hv1, Hv2.
  eexists. eexists. split; [reflexivity|]. split; [reflexivity|].
  assert (E : filter (fun a => Py.geb (a_risk_score a) (Py.Float t2))
                (filter (fun a => Py.geb (a_risk_score a) (Py.Float t1))
                   (Render1.latest_alerts st)) =
              filter (fun a => Py.geb (a_risk_score a) (Py.Float t2))
                (Render1.latest_alerts st)).
  { apply filter_filter_implied. intros a. apply geb_weaken. exact H12. }
  split.
  - symmetry. exact E.
  - rewrite <- E. apply filter_subseq.
Qed.

Lemma get_alerts_threshold_monotone_witness :
  exists r1 r2,
    Render1.get_alerts (Some 0.5%float) sample_state =
      (FastAPI.JSONResponse (Render1.mk_alerts_content 0.5 r1), sample_state) /\
    Render1.get_alerts (Some 0.9%float) sample_state =
      (FastAPI.JSONResponse (Render1.mk_alerts_content 0.9 r2), sample_state) /\
    r2 = filter (fun a => Py.geb (a_risk_score a) (Py.Float 0.9)) r1 /\
    subseq r2 r1.
Proof.
  apply (get_alerts_threshold_monotone sample_state 0.5%float 0.9%float);
    reflexivity.
Defined.

(** ** More on the loops and the queries *)

Section Observations.

Variable hex : HexBytes -> string.
Variable get_transaction : HexBytes -> option chain_tx.
Variable json_dumps : tx_data -> string.
Variable json_loads : string -> option tx_data.
Variable repr_float : float -> string.

Local Abbreviation reachable1' :=
  (Render1.reachable hex get_transaction json_dumps json_loads repr_float).
Local Abbreviation consume_iter1' := (Render1.consume_iter json_loads repr_float).
Local Abbreviation consume_iter0' := (Render.consume_iter json_loads).
Local Abbreviation consume_loop1' := (Render1.consume_loop json_loads repr_float).
Local Abbreviation consume_loop0' := (Render.consume_loop json_loads).
Local Abbreviation score_and_cache1' := (Render1.score_and_cache repr_float).
Local Abbreviation listen_entry1' :=
  (Render1.listen_entry hex get_transaction json_dumps).
Local Abbreviation listen_entry0' :=
  (Render.listen_entry hex get_transaction json_dumps).
Local Abbreviation listen_poll1' :=
  (Render1.listen_poll hex get_transaction json_dumps).
Local Abbreviation listen_poll0' :=
  (Render.listen_poll hex get_transaction json_dumps).
Local Abbreviation listen_pending_tx1' :=
  (Render1.listen_pending_tx hex get_transaction json_dumps).
Local Abbreviation listen_pending_tx0' :=
  (Render.listen_pending_tx hex get_transaction json_dumps).
Local Abbreviation build_tx_data1' := (Render1.build_tx_data hex get_transaction).

(** X5.  In a reachable state a threshold at or below the retention score
    [0.3] filters nothing: the query returns the whole alert cache. *)
Theorem get_alerts_low_threshold_whole_cache (st : Render1.state) (t : float) :
  reachable1' st ->
  (0.0 <=? t)%float = true ->
  (t <=? 0.3)%float = true ->
  Render1.get_alerts (Some t) st =
  (FastAPI.JSONResponse
     (Render1.mk_alerts_content t (Render1.latest_alerts st)), st).
Proof.
  intros Hr H0 H3.
  assert (H1 : (t <=? 1.0)%float = true)
    by (apply (float_leb_trans _ _ _ H3); reflexivity).
  unfold Render1.get_alerts, FastAPI.validate, Render1.threshold_query.
  cbn [FastAPI.q_ge FastAPI.q_le]. rewrite H0, H1. cbn [andb].
  rewrite filter_all; [reflexivity|].
  apply reachable1_inv1 in Hr. destruct Hr as (_ & _ & Hq).
  eapply Forall_impl; [|exact Hq].
  intros a Ha. apply (geb_weaken _ _ _ H3). exact Ha.
Qed.

(** X6.  The consumer logs every record it handles, kept or not: after the
    iteration the newest line of [/logs] is the line of this record, with its
    hash and score, followed by the 19 newest of the lines before. *)
Theorem consumer_logs_every_record (st : Render1.state) (s : string)
  (q : Redis.rlist) (tx : tx_data) :
  reachable1' st ->
  Redis.rpop (Render1.tx_queue st) = (Some s, q) ->
  Py.truthy s = true ->
  json_loads s = Some tx ->
  exists st',
    consume_iter1' st = Render1.Done st' /\
    fst (Render1.get_logs st') =
    FastAPI.JSONResponse
      (Render1.mk_logs_content
         (("📤 消费交易：" ++ t_hash tx ++ " | 风险分：" ++
           Render1.str_score repr_float (Render1.simple_risk_score tx))%string
          :: firstn 19 (Render1.transaction_logs st))).
Proof.
  intros Hr Hpop Ht Hl.
  eexists. split; [apply (consume_iter1_popped _ _ st s q tx Hpop Ht Hl)|].
  apply reachable1_inv1 in Hr. destruct Hr as (_ & Hlen & _).
  unfold Render1.get_logs. cbn [fst]. do 2 f_equal.
  unfold Render1.score_and_cache.
  destruct (Py.geb (Render1.simple_risk_score tx) (Py.Float 0.3));
    unfold Render1.cache_alert;
    cbn [Render1.transaction_logs Render1.set_latest_alerts];
    rewrite log_message_logs by exact Hlen; reflexivity.
Qed.

Lemma listen_entry1_alerts (st : Render1.state) (e : HexBytes * string) :
  Render1.latest_alerts (listen_entry1' st e) = Render1.latest_alerts st.
Proof.
  unfold Render1.listen_entry, Render1.listen_try.
  destruct (build_tx_data1' (snd e) (fst e)); reflexivity.
Qed.

Lemma listen_poll1_alerts (tx_hashes : list (HexBytes * string))
  (st : Render1.state) :
  Render1.latest_alerts (listen_poll1' st tx_hashes) = Render1.latest_alerts st.
Proof.
  revert st. unfold Render1.listen_poll.
  induction tx_hashes as [|e es IH]; intros st; cbn [fold_left];
    [reflexivity|].
  rewrite IH. apply listen_entry1_alerts.
Qed.

Lemma built1_app (l1 l2 : list (HexBytes * string)) :
  built1 hex get_transaction (l1 ++ l2) =
  built1 hex get_transaction l1 ++ built1 hex get_transaction l2.
Proof. unfold built1. apply flat_map_app. Qed.

Lemma built0_app (l1 l2 : list (HexBytes * string)) :
  built0 hex get_transaction (l1 ++ l2) =
  built0 hex get_transaction l1 ++ built0 hex get_transaction l2.
Proof. unfold built0. apply flat_map_app. Qed.

Lemma fold_listen_poll1 (polls : list (list (HexBytes * string)))
  (st : Render1.state) :
  Render1.latest_alerts (fold_left listen_poll1' polls st) =
    Render1.latest_alerts st /\
  Render1.tx_queue (fold_left listen_poll1' polls st) =
    rev (map json_dumps (built1 hex get_transaction (List.concat polls)))
    ++ Render1.tx_queue st.
Proof.
  revert st. induction polls as [|p ps IH]; intros st; cbn [fold_left List.concat].
  - split; reflexivity.
  - destruct (IH (listen_poll1' st p)) as [Ha Hq]. split.
    + rewrite Ha. apply listen_poll1_alerts.
    + rewrite Hq, listen_poll1_queue, built1_app, map_app, rev_app_distr,
        app_assoc. reflexivity.
Qed.

Lemma fold_listen_poll0 (polls : list (list (HexBytes * string)))
  (st : Render.state) :
  Render.latest_alerts (fold_left listen_poll0' polls st) =
    Render.latest_alerts st /\
  Render.tx_queue (fold_left listen_poll0' polls st) =
    rev (map json_dumps (built0 hex get_transaction (List.concat polls)))
    ++ Render.tx_queue st.
Proof.
  revert st. induction polls as [|p ps IH]; intros st; cbn [fold_left List.concat].
  - split; reflexivity.
  - destruct (IH (listen_poll0' st p)) as [Ha Hq]. split.
    + rewrite Ha. unfold Render.listen_poll. clear.
      revert st. induction p as [|e es IHp]; intros st; cbn [fold_left];
        [reflexivity|].
      rewrite IHp. unfold Render.listen_entry, Render.listen_try.
      destruct (Render.build_tx_data hex get_transaction (snd e) (fst e));
        reflexivity.
    + rewrite Hq, listen_poll0_queue, built0_app, map_app, rev_app_distr,
        app_assoc. reflexivity.
Qed.

(** X7.  Over any run of polls the producer only pushes: the alert cache is
    as it was, and the queue is its former content with the payloads of the
    records built put in front of it, the newest first; nothing that was
    queued is removed or reordered.  Both versions. *)
Theorem listener_only_pushes (polls : list (list (HexBytes * string))) :
  (forall st,
     Render1.latest_alerts (listen_pending_tx1' polls st) =
       Render1.latest_alerts st /\
     Render1.tx_queue (listen_pending_tx1' polls st) =
       rev (map json_dumps (built1 hex get_transaction (List.concat polls)))
       ++ Render1.tx_queue st)
  /\
  (forall st,
     Render.latest_alerts (listen_pending_tx0' polls st) =
       Render.latest_alerts st /\
     Render.tx_queue (listen_pending_tx0' polls st) =
       rev (map json_dumps (built0 hex get_transaction (List.concat polls)))
       ++ Render.tx_queue st).
Proof.
  split; intros st.
  - unfold Render1.listen_pending_tx.
    destruct (fold_listen_poll1 polls
                (Render1.log_message "✅ 启动监听中..." st)) as [Ha Hq].
    split; [exact Ha | exact Hq].
  - unfold Render.listen_pending_tx. apply fold_listen_poll0.
Qed.

(** X8.  The two versions of the producer push the same payloads: started on
    the same queue and fed the same polls, they leave the same queue. *)
Theorem listeners_push_alike (polls : list (list (HexBytes * string)))
  (st1 : Render1.state) (st0 : Render.state) :
  Render1.tx_queue st1 = Render.tx_queue st0 ->
  Render1.tx_queue (listen_pending_tx1' polls st1) =
  Render.tx_queue (listen_pending_tx0' polls st0).
Proof.
  intros H. unfold Render1.listen_pending_tx, Render.listen_pending_tx.
  rewrite (proj2 (fold_listen_poll1 polls _)),
          (proj2 (fold_listen_poll0 polls _)).
  rewrite log_message_queue, H. reflexivity.
Qed.

(** X9.  A payload on which [json.loads] raises ends the consumer: the
    exception is not caught, so however many iterations are asked for, the
    loop stops right there.  The payload has been popped and is lost, nothing
    is logged or cached, and the payloads queued behind it stay in the queue.
    Both versions. *)
Theorem consumer_stops_at_undecodable_payload (s : string) (q : Redis.rlist)
  (n : nat) :
  Py.truthy s = true ->
  json_loads s = None ->
  (forall st,
     Redis.rpop (Render1.tx_queue st) = (Some s, q) ->
     consume_loop1' (S n) st = Render1.Raised (Render1.set_tx_queue q st))
  /\
  (forall st,
     Redis.rpop (Render.tx_queue st) = (Some s, q) ->
     consume_loop0' (S n) st = Render.Raised (Render.set_tx_queue q st)).
Proof.
  intros Ht Hl. split; intros st Hpop.
  - cbn [Render1.consume_loop]. unfold Render1.consume_iter.
    rewrite Hpop, Ht, Hl. reflexivity.
  - cbn [Render.consume_loop]. unfold Render.consume_iter.
    rewrite Hpop, Ht, Hl. reflexivity.
Qed.

Lemma consume_loop1_idle (n : nat) (st : Render1.state) :
  Render1.tx_queue st = [] -> consume_loop1' n st = Render1.Done st.
Proof.
  intros H. induction n as [|n IH]; cbn [Render1.consume_loop];
    [reflexivity|].
  unfold Render1.consume_iter. rewrite H. cbn [Redis.rpop].
  replace (Render1.set_tx_queue [] st) with st; [exact IH|].
  destruct st as [qq a l]. cbn in H. subst qq. reflexivity.
Qed.

Lemma consume_loop0_idle (n : nat) (st : Render.state) :
  Render.tx_queue st = [] -> consume_loop0' n st = Render.Done st.
Proof.
  intros H. induction n as [|n IH]; cbn [Render.consume_loop];
    [reflexivity|].
  unfold Render.consume_iter. rewrite H. cbn [Redis.rpop].
  replace (Render.set_tx_queue [] st) with st; [exact IH|].
  destruct st as [qq a]. cbn in H. subst qq. reflexivity.
Qed.

(** X10.  On an empty queue the consumer changes nothing, for any number of
    iterations.  A payload that is the empty string counts as no payload: it
    is popped and dropped without a log line, an alert or an exception. *)
Theorem consumer_idle_and_empty_payload :
  (forall n st,
     Render1.tx_queue st = [] -> consume_loop1' n st = Render1.Done st)
  /\ (forall n st,
        Render.tx_queue st = [] -> consume_loop0' n st = Render.Done st)
  /\ (forall st q,
        Redis.rpop (Render1.tx_queue st) = (Some "", q) ->
        consume_iter1' st = Render1.Done (Render1.set_tx_queue q st))
  /\ (forall st q,
        Redis.rpop (Render.tx_queue st) = (Some "", q) ->
        consume_iter0' st = Render.Done (Render.set_tx_queue q st)).
Proof.
  repeat apply conj.
  - exact consume_loop1_idle.
  - exact consume_loop0_idle.
  - intros st q H. unfold Render1.consume_iter. rewrite H. reflexivity.
  - intros st q H. unfold Render.consume_iter. rewrite H. reflexivity.
Qed.

Lemma rpop_queue (q : Redis.rlist) : snd (Redis.rpop q) = removelast q.
Proof. destruct q; reflexivity. Qed.

(** X11.  One iteration of the consumer, however it ends, takes exactly the
    oldest payload off the queue and never adds one: the queue afterwards is
    the queue before without its last element.  Both versions. *)
Theorem consumer_pops_one :
  (forall st,
     Render1.tx_queue (state_of1 (consume_iter1' st)) =
     removelast (Render1.tx_queue st))
  /\
  (forall st,
     Render.tx_queue (state_of0 (consume_iter0' st)) =
     removelast (Render.tx_queue st)).
Proof.
  split; intros st.
  - rewrite <- rpop_queue. unfold Render1.consume_iter.
    destruct (Redis.rpop (Render1.tx_queue st)) as [[s|] q];
      [|reflexivity].
    destruct (Py.truthy s); [|reflexivity].
    destruct (json_loads s) as [tx|]; [|reflexivity].
    cbn [state_of1 snd]. rewrite score_and_cache1_set_tx_queue. reflexivity.
  - rewrite <- rpop_queue. unfold Render.consume_iter.
    destruct (Redis.rpop (Render.tx_queue st)) as [[s|] q];
      [|reflexivity].
    destruct (Py.truthy s); [|reflexivity].
    destruct (json_loads s) as [tx|]; [|reflexivity].
    cbn [state_of0 snd]. rewrite score_and_cache0_set_tx_queue. reflexivity.
Qed.

(** X12.  From producer to query: when the queue is empty and an identifier
    resolves to a record that survives the JSON round trip, one producer
    iteration followed by one consumer iteration ends normally, and a query
    at any valid threshold that the record's score reaches (the score being
    at least the retention score) returns the record's alert first. *)
Theorem enqueued_record_surfaces (st : Render1.state) (e : HexBytes * string)
  (d : tx_data) (t : float) :
  Render1.tx_queue st = [] ->
  build_tx_data1' (snd e) (fst e) = Some d ->
  json_loads (json_dumps d) = Some d ->
  json_loads "" = None ->
  (0.0 <=? t)%float = true ->
  (t <=? 1.0)%float = true ->
  Py.geb (Render1.simple_risk_score d) (Py.Float 0.3) = true ->
  Py.geb (Render1.simple_risk_score d) (Py.Float t) = true ->
  exists st' rest,
    consume_iter1' (listen_entry1' st e) = Render1.Done st' /\
    Render1.tx_queue st' = [] /\
    fst (Render1.get_alerts (Some t) st') =
    FastAPI.JSONResponse
      (Render1.mk_alerts_content t
         (alert_of d (Render1.simple_risk_score d) :: rest)).
Proof.
  intros Hq Hb Hrt Hempty H0 H1 Hkeep Hshow.
  assert (Hne : json_dumps d <> "").
  { intros E. rewrite E, Hempty in Hrt. discriminate Hrt. }
  assert (Hpop : Redis.rpop (Render1.tx_queue (listen_entry1' st e)) =
                 (Some (json_dumps d), [])).
  { unfold Render1.listen_entry, Render1.listen_try. rewrite Hb.
    unfold Render1.enqueue. rewrite log_message_queue.
    cbn [Render1.tx_queue Render1.set_tx_queue]. rewrite Hq. reflexivity. }
  eexists. eexists. split; [|split].
  - apply (consume_iter1_popped _ _ _ _ _ _ Hpop
             (truthy_nonempty _ Hne) Hrt).
  - rewrite score_and_cache1_set_tx_queue. reflexivity.
  - unfold Render1.get_alerts, FastAPI.validate, Render1.threshold_query.
    cbn [FastAPI.q_ge FastAPI.q_le]. rewrite H0, H1. cbn [andb fst].
    rewrite score_and_cache1_alerts, Hkeep.
    cbn [firstn filter alert_of a_risk_score]. rewrite Hshow. reflexivity.
Qed.

(** After the consumer has handled a list of records, the alert cache holds
    the alerts of the kept ones, newest first, up to capacity. *)
Lemma fold_score_and_cache1 (records : list tx_data) (st : Render1.state) :
  List.length (Render1.latest_alerts st) <= 10 ->
  Render1.latest_alerts
    (fold_left (fun s d => score_and_cache1' d s) records st) =
  firstn 10
    (rev (map (fun d => alert_of d (Render1.simple_risk_score d))
            (filter (fun d => Py.geb (Render1.simple_risk_score d)
                                (Py.Float 0.3)) records))
     ++ Render1.latest_alerts st).
Proof.
  revert st. induction records as [|d rs IH]; intros st H;
    cbn [fold_left filter].
  - cbn [map rev]. rewrite app_nil_l, firstn_all2; [reflexivity | exact H].
  - rewrite IH; rewrite score_and_cache1_alerts;
      destruct (Py.geb (Render1.simple_risk_score d) (Py.Float 0.3));
      try exact H; try apply firstn_le_length.
    + cbn [map rev]. rewrite firstn_app_firstn, <- app_assoc. reflexivity.
    + reflexivity.
Qed.

Lemma fold_score_and_cache0 (records : list tx_data) (st : Render.state) :
  List.length (Render.latest_alerts st) <= 10 ->
  Render.latest_alerts
    (fold_left (fun s d => Render.score_and_cache d s) records st) =
  firstn 10
    (rev (map (fun d => alert_of d (Render.simple_risk_score d))
            (filter (fun d => Py.geb (Render.simple_risk_score d)
                                (Py.Float 0.8)) records))
     ++ Render.latest_alerts st).
Proof.
  revert st. induction records as [|d rs IH]; intros st H;
    cbn [fold_left filter].
  - cbn [map rev]. rewrite app_nil_l, firstn_all2; [reflexivity | exact H].
  - rewrite IH; rewrite score_and_cache0_alerts;
      destruct (Py.geb (Render.simple_risk_score d) (Py.Float 0.8));
      try exact H; try apply firstn_le_length.
    + cbn [map rev]. rewrite firstn_app_firstn, <- app_assoc. reflexivity.
    + reflexivity.
Qed.

(** Cutting a finer selection after [m] elements keeps at least what the
    finer selection finds among the first [n <= m] elements of a coarser
    one. *)
Lemma firstn_filter_prefix {A : Type} (p q : A -> bool) (l : list A) :
  (forall a, p a = true -> q a = true) ->
  forall n m, n <= m ->
  exists older,
    firstn m (filter p l) = filter p (firstn n (filter q l)) ++ older.
Proof.
  intros Hpq. induction l as [|x l IH]; intros n m Hle.
  - exists []. cbn [filter]. rewrite !firstn_nil. reflexivity.
  - cbn [filter]. destruct (q x) eqn:Hq.
    + destruct n as [|n].
      * eexists. cbn [firstn filter app]. reflexivity.
      * cbn [firstn filter]. destruct (p x) eqn:Hp.
        -- destruct m as [|m]; [lia|].
           destruct (IH n m) as [older E]; [lia|].
           exists older. cbn [firstn]. rewrite E. reflexivity.
        -- apply IH. lia.
    + destruct (p x) eqn:Hp; [apply Hpq in Hp; congruence|].
      apply IH. exact Hle.
Qed.

(** X13.  Fed the same records from empty caches, the alerts that the second
    version returns at its default threshold [0.8] are the newest part of
    the first version's cache.  The first version may still hold older
    high-score alerts that the second one has evicted to make room for
    low-score ones; the converse never happens. *)
Theorem render1_default_view_prefix_of_render (records : list tx_data)
  (q1 q0 : Redis.rlist) :
  exists older,
    Render.latest_alerts
      (fold_left (fun s d => Render.score_and_cache d s) records
         (Render.init q0)) =
    filter (fun a => Py.geb (a_risk_score a) (Py.Float 0.8))
      (Render1.latest_alerts
         (fold_left (fun s d => score_and_cache1' d s) records
            (Render1.init q1)))
    ++ older.
Proof.
  rewrite fold_score_and_cache0, fold_score_and_cache1 by (cbn; lia).
  cbn [Render.init Render1.init Render.latest_alerts Render1.latest_alerts].
  rewrite !app_nil_r.
  change Render.simple_risk_score with Render1.simple_risk_score.
  set (a := fun d => alert_of d (Render1.simple_risk_score d)).
  rewrite <- !map_rev, <- !filter_rev.
  rewrite <- (filter_map_swap
                (fun x => Py.geb (a_risk_score x) (Py.Float 0.8)) a),
          <- (filter_map_swap
                (fun x => Py.geb (a_risk_score x) (Py.Float 0.3)) a).
  apply firstn_filter_prefix; [|lia].
  intros x. apply geb_weaken. reflexivity.
Qed.

(** X14.  The alert cache is not de-duplicated: when the consumer handles the
    same kept record twice, its alert occupies the two first places of the
    cache. *)
Theorem consumer_does_not_deduplicate (tx : tx_data) (st : Render1.state) :
  rule_value tx || rule_gas tx || rule_from tx = true ->
  Render1.latest_alerts
    (score_and_cache1' tx (score_and_cache1' tx st)) =
  alert_of tx (Render1.simple_risk_score tx)
    :: alert_of tx (Render1.simple_risk_score tx)
    :: firstn 8 (Render1.latest_alerts st).
Proof.
  intros H.
  assert (E : Py.geb (Render1.simple_risk_score tx) (Py.Float 0.3) = true).
  { rewrite score1_cases.
    destruct (rule_value tx), (rule_gas tx), (rule_from tx);
      try reflexivity; discriminate H. }
  rewrite !score_and_cache1_alerts, E.
  rewrite !firstn_cons, firstn_firstn. reflexivity.
Qed.

End Observations.

(** ** The further properties on the sample environment *)

Lemma get_alerts_low_threshold_whole_cache_witness :
  Render1.get_alerts (Some 0.1%float) sample_consumed =
  (FastAPI.JSONResponse
     (Render1.mk_alerts_content 0.1 (Render1.latest_alerts sample_consumed)),
   sample_consumed).
Proof.
  apply (get_alerts_low_threshold_whole_cache
           sample_hex sample_get_transaction sample_json_dumps
           sample_json_loads sample_repr_float sample_consumed 0.1%float).
  - apply sample_consumed_reachable.
  - reflexivity.
  - reflexivity.
Defined.

Lemma consumer_logs_every_record_witness :
  exists st',
    Render1.consume_iter sample_json_loads sample_repr_float sample_polled =
    Render1.Done st' /\
    fst (Render1.get_logs st') =
    FastAPI.JSONResponse
      (Render1.mk_logs_content
         (("📤 消费交易：" ++ t_hash sample_tx1 ++ " | 风险分：" ++
           Render1.str_score sample_repr_float
             (Render1.simple_risk_score sample_tx1))%string
          :: firstn 19 (Render1.transaction_logs sample_polled))).
Proof.
  apply (consumer_logs_every_record
           sample_hex sample_get_transaction sample_json_dumps
           sample_json_loads sample_repr_float
           sample_polled "0xaa@t1" ["0xaa@t3"] sample_tx1).
  - apply sample_polled_reachable.
  - reflexivity.
  - reflexivity.
  - reflexivity.
Defined.

Lemma listeners_push_alike_witness :
  Render1.tx_queue
    (Render1.listen_pending_tx sample_hex sample_get_transaction
       sample_json_dumps [sample_poll] sample_state) =
  Render.tx_queue
    (Render.listen_pending_tx sample_hex sample_get_transaction
       sample_json_dumps [sample_poll] sample_state0).
Proof.
  apply (listeners_push_alike sample_hex sample_get_transaction
           sample_json_dumps [sample_poll] sample_state sample_state0).
  reflexivity.
Defined.

Lemma consumer_stops_at_undecodable_payload_witness :
  Render1.consume_loop sample_json_loads sample_repr_float 4 sample_garbled =
  Render1.Raised (Render1.set_tx_queue ["0xaa@t1"] sample_garbled).
Proof.
  apply (proj1 (consumer_stops_at_undecodable_payload
                  sample_json_loads sample_repr_float
                  "not json" ["0xaa@t1"] 3 eq_refl eq_refl)).
  reflexivity.
Defined.

Lemma enqueued_record_surfaces_witness :
  exists st' rest,
    Render1.consume_iter sample_json_loads sample_repr_float
      (Render1.listen_entry sample_hex sample_get_transaction
         sample_json_dumps (Render1.init []) ("aa", "t1")) =
    Render1.Done st' /\
    Render1.tx_queue st' = [] /\
    fst (Render1.get_alerts (Some 0.8%float) st') =
    FastAPI.JSONResponse
      (Render1.mk_alerts_content 0.8
         (alert_of sample_tx1 (Render1.simple_risk_score sample_tx1) :: rest)).
Proof.
  apply (enqueued_record_surfaces
           sample_hex sample_get_transaction sample_json_dumps
           sample_json_loads sample_repr_float
           (Render1.init []) ("aa", "t1") sample_tx1 0.8%float);
    reflexivity.
Defined.

Lemma consumer_does_not_deduplicate_witness :
  Render1.latest_alerts
    (Render1.score_and_cache sample_repr_float tx_all_rules
       (Render1.score_and_cache sample_repr_float tx_all_rules sample_state)) =
  alert_of tx_all_rules (Render1.simple_risk_score tx_all_rules)
    :: alert_of tx_all_rules (Render1.simple_risk_score tx_all_rules)
    :: firstn 8 (Render1.latest_alerts sample_state).
Proof.
  apply (consumer_does_not_deduplicate sample_repr_float
           tx_all_rules sample_state).
  reflexivity.
Defined.
